(** * ai-therapist-via: Telegram life-coach bot with a Stripe paywall

    A shallow embedding of [telegram_bot.py] and [utils.py].

    - The MongoDB collection [users_collection] is a list of documents in
      insertion order; [find_one] and [update_one] act on the first match.
    - Handlers are computations in a state-and-exception monad [M] over a
      [World]: the collection, a chronological trace of what the program did
      to the outside (messages delivered, LLM requests, checkout sessions,
      database writes) and a clock.
    - Third-party calls (Telegram, Groq, Stripe, OpenCV, FER, pydub,
      speech_recognition, transformers) are oracles of an [Env]; each is asked
      at the current clock value, so successive calls may answer differently,
      and each may raise.  Exceptions range over the subclasses of Python's
      [Exception]; logging is not part of the world, and the database
      driver itself is taken to answer every call. *)

From Stdlib Require Import ZArith String Ascii List Lia.
From stdpp Require Import base list strings pretty.

Open Scope string_scope.
Open Scope list_scope.
Open Scope Z_scope.

(** ** Data model *)

(** One entry of [conversation_history]: [{"user": ..., "bot": ...}].  The
    user side is [update.message.text] on the text path, which Python types
    as optional. *)
Record Turn := mkTurn { user : option string; bot : string }.

(** A document of [users_collection], with the four fields every
    [insert_one] of the program writes. *)
Record Doc := mkDoc {
  user_id : Z;
  message_count : Z;
  subscribed : bool;
  conversation_history : list Turn
}.

(** The operators occurring in the program's update documents. *)
Inductive FieldOp :=
| SetSubscribed (b : bool)                  (* "$set": {"subscribed": b} *)
| SetConversationHistory (h : list Turn)    (* "$set": {"conversation_history": h} *)
| IncMessageCount (n : Z)                   (* "$inc": {"message_count": n} *)
| PushConversationHistory (t : Turn).       (* "$push": {"conversation_history": t} *)

Inductive exn :=
| ValueError
| TypeError
| IndexError
| AttributeError
| SignatureVerificationError
| LibraryError (msg : string).

Inductive Event :=
| Reply (text : string)
| GroqRequest (prompt : string)
| CheckoutSessionCreate (client_reference_id : string)
| DbInsert (d : Doc)
| DbUpdate (uid : Z) (upd : list FieldOp).

Record World := mkWorld {
  users_collection : list Doc;
  trace : list Event;
  clock : nat
}.

(** A face rectangle [(x, y, w, h)] and an image as rows of pixels. *)
Definition Rect : Type := nat * nat * nat * nat.
Definition Image : Type := list (list (list Z)).

(** [data.object] of a Stripe event, restricted to the keys the handlers read. *)
Record StripeObject := mkStripeObject {
  client_reference_id : option string;
  metadata_user_id : option string;      (* .get('metadata', {}).get('user_id') *)
  status : string
}.

Record StripeEvent := mkStripeEvent {
  event_type : string;
  data_object : StripeObject
}.

(** [update.message], restricted to what the handlers read. *)
Record Update := mkUpdate {
  from_user_id : Z;
  text : option string;
  photo : list string;
  voice : option string;
  video : option string
}.

Record Request := mkRequest {
  payload : string;
  sig_header : option string
}.

Inductive Body := EmptyBody | JsonError (msg : string).

(** ** The outside world *)

Record Env := mkEnv {
  STRIPE_WEBHOOK_SECRET : option string;
  (* groq_response.get_groq_response *)
  groq : nat → string → exn + string;
  (* update.message.reply_text; [None] is a delivered message *)
  telegram_reply_text : nat → string → option exn;
  telegram_get_file : nat → string → exn + string;
  telegram_download_as_bytearray : nat → string → exn + list Byte.byte;
  os_makedirs : nat → string → option exn;
  (* with open(path, 'wb') as f: f.write(...) *)
  open_write : nat → string → list Byte.byte → option exn;
  (* stripe.checkout.Session.create(...).url *)
  stripe_checkout_Session_create : nat → string → exn + string;
  stripe_Webhook_construct_event :
    nat → string → option string → option string → exn + StripeEvent;
  (* int(s) on a string; [None] is ValueError *)
  int_of_str : string → option Z;
  (* cv2.imread; [inr None] is the library's None *)
  cv2_imread : nat → string → exn + option Image;
  cv2_cvtColor : nat → Image → exn + Image;
  (* CascadeClassifier(...).detectMultiScale(gray, 1.1, 4) *)
  detectMultiScale : nat → Image → exn + list Rect;
  (* FER(mtcnn=True).detect_emotions(face): per face found, the 'emotions'
     dict in iteration order, scores (rounded to two decimals by FER) in
     hundredths *)
  FER_detect_emotions : nat → Image → exn + list (list (string * Z));
  (* cv2.VideoCapture(path): whether it opened, and the frames [cap.read()]
     will deliver before it reports the end of the file (finitely many) *)
  cv2_VideoCapture : nat → string → exn + (bool * list Image);
  cap_release : nat → option exn;
  AudioSegment_from_file : nat → string → option exn;
  AudioSegment_export : nat → string → option exn;
  (* with sr.AudioFile(wav_path) as source: recognizer.record(source) *)
  recognizer_record : nat → string → option exn;
  (* recognizer.recognize_google(audio), on what was recorded from the path *)
  recognize_google : nat → string → exn + string;
  (* pipeline('sentiment-analysis')(text): the 'label' of each result *)
  sentiment_analyzer : nat → string → exn + list string
}.

(** ** The handler monad *)

Inductive Res (A : Type) :=
| Ok (a : A)
| Raise (e : exn).
Arguments Ok {A} a.
Arguments Raise {A} e.

Definition M (A : Type) : Type := World → Res A * World.

#[global] Instance M_ret : MRet M := λ A a w, (Ok a, w).

#[global] Instance M_bind : MBind M := λ A B k m w,
  match m w with
  | (Ok a, w') => k a w'
  | (Raise e, w') => (Raise e, w')
  end.

Definition raise {A} (e : exn) : M A := λ w, (Raise e, w).

(** [try: m except Exception as e: h e] *)
Definition try_except {A} (m : M A) (h : exn → M A) : M A := λ w,
  match m w with
  | (Ok a, w') => (Ok a, w')
  | (Raise e, w') => h e w'
  end.

Definition tick (w : World) : World :=
  mkWorld (users_collection w) (trace w) (S (clock w)).

Definition emit (e : Event) : M unit := λ w,
  (Ok tt, mkWorld (users_collection w) (trace w ++ [e]) (clock w)).

(** A third-party call that returns a value or raises. *)
Definition extern {A} (f : nat → exn + A) : M A := λ w,
  (match f (clock w) with inl e => Raise e | inr a => Ok a end, tick w).

(** A third-party call made for its effect. *)
Definition extern_ (f : nat → option exn) : M unit := λ w,
  (match f (clock w) with Some e => Raise e | None => Ok tt end, tick w).

(** ** MongoDB *)

Definition apply_op (o : FieldOp) (d : Doc) : Doc :=
  match o with
  | SetSubscribed b =>
      mkDoc (user_id d) (message_count d) b (conversation_history d)
  | SetConversationHistory h =>
      mkDoc (user_id d) (message_count d) (subscribed d) h
  | IncMessageCount n =>
      mkDoc (user_id d) (message_count d + n) (subscribed d) (conversation_history d)
  | PushConversationHistory t =>
      mkDoc (user_id d) (message_count d) (subscribed d) (conversation_history d ++ [t])
  end.

Definition apply_update (upd : list FieldOp) (d : Doc) : Doc :=
  fold_left (λ d o, apply_op o d) upd d.

(** First document matching [{"user_id": uid}]. *)
Fixpoint find_first (uid : Z) (l : list Doc) : option Doc :=
  match l with
  | [] => None
  | d :: l' => if user_id d =? uid then Some d else find_first uid l'
  end.

(** Rewrite the first document matching [{"user_id": uid}]; no upsert. *)
Fixpoint update_first (uid : Z) (f : Doc → Doc) (l : list Doc) : list Doc :=
  match l with
  | [] => []
  | d :: l' => if user_id d =? uid then f d :: l' else d :: update_first uid f l'
  end.

(** The three calls of the driver.  They are taken to answer: a pymongo
    error (which in [handle_message] would be raised inside the [try] of
    lines 160-169 and 174-183, after the reply, and caught there) is outside
    the model. *)
Definition find_one (uid : Z) : M (option Doc) := λ w,
  (Ok (find_first uid (users_collection w)), w).

Definition insert_one (d : Doc) : M unit := λ w,
  (Ok tt, mkWorld (users_collection w ++ [d]) (trace w ++ [DbInsert d]) (clock w)).

Definition update_one (uid : Z) (upd : list FieldOp) : M unit := λ w,
  (Ok tt, mkWorld (update_first uid (apply_update upd) (users_collection w))
                  (trace w ++ [DbUpdate uid upd]) (clock w)).

(** ** Python helpers *)

Definition nl : string := String (ascii_of_nat 10) "".

(** [f"{x}"] on an optional string. *)
Definition fmt (x : option string) : string :=
  match x with Some s => s | None => "None" end.

(** Truthiness of an optional string: neither [None] nor empty. *)
Definition truthy (x : option string) : bool :=
  match x with Some (String _ _) => true | _ => false end.

Fixpoint starts_with (p s : string) : bool :=
  match p, s with
  | EmptyString, _ => true
  | String a p', String b s' => if Ascii.eqb a b then starts_with p' s' else false
  | String _ _, EmptyString => false
  end.

(** [s.replace(old, new)] for a non-empty [old]: [skip] counts the characters
    of a match still to be dropped. *)
Fixpoint replace_go (old new : string) (skip : nat) (s : string) : string :=
  match s with
  | EmptyString => EmptyString
  | String c s' =>
      match skip with
      | S k => replace_go old new k s'
      | O =>
          if starts_with old s
          then new +:+ replace_go old new (Nat.pred (String.length old)) s'
          else String c (replace_go old new O s')
      end
  end.

Definition str_replace (s old new : string) : string := replace_go old new O s.

(** [image[y:y+h, x:x+w]] *)
Definition crop (image : Image) (r : Rect) : Image :=
  let '(x, y, w, h) := r in
  (λ row, take w (drop x row)) <$> take h (drop y image).

(** [max(d, key=d.get)] over the remaining items: the first key whose value
    is strictly greater than everything before it wins. *)
Fixpoint max_key_go (best : string * Z) (d : list (string * Z)) : string :=
  match d with
  | [] => best.1
  | kv :: d' => if kv.2 >? best.2 then max_key_go kv d' else max_key_go best d'
  end.

Definition max_key (d : list (string * Z)) : M string :=
  match d with
  | [] => raise ValueError
  | kv :: d' => mret (max_key_go kv d')
  end.

Section Program.

Variable env : Env.

(** ** utils.py *)

Definition detect_emotion (face : Image) : M string :=
  emotions ← extern (λ t, FER_detect_emotions env t face);
  match emotions with
  | e0 :: _ => max_key e0
  | [] => mret "neutral"
  end.

(** The [try] block of [analyze_image]. *)
Definition analyze_image_try (image_path : string) : M (list string) :=
  image ← extern (λ t, cv2_imread env t image_path);
  match image with
  | None => raise ValueError
  | Some image =>
      gray ← extern (λ t, cv2_cvtColor env t image);
      faces ← extern (λ t, detectMultiScale env t gray);
      mapM (λ r, detect_emotion (crop image r)) faces
  end.

Definition analyze_image (image_path : string) : M (list string) :=
  try_except (analyze_image_try image_path) (λ e, mret ["error"]).

(** The [try] block of [analyze_audio]. *)
Definition analyze_audio_try (audio_path : string) : M (string * list string) :=
  extern_ (λ t, AudioSegment_from_file env t audio_path);;
  let wav_path := str_replace audio_path ".oga" ".wav" in
  extern_ (λ t, AudioSegment_export env t wav_path);;
  extern_ (λ t, recognizer_record env t wav_path);;
  text ← extern (λ t, recognize_google env t wav_path);
  sentiment ← extern (λ t, sentiment_analyzer env t text);
  mret (text, sentiment).

Definition analyze_audio (audio_path : string) : M (string * list string) :=
  try_except (analyze_audio_try audio_path) (λ e, mret ("error", ["neutral"])).

(** The [while cap.isOpened()] loop over the frames [cap.read()] delivers;
    running out of frames is [ret == False]. *)
Fixpoint video_frames (frames : list Image) (emotions : list string)
  : M (list string) :=
  match frames with
  | [] => mret emotions
  | frame :: rest =>
      gray ← extern (λ t, cv2_cvtColor env t frame);
      faces ← extern (λ t, detectMultiScale env t gray);
      found ← mapM (λ r, detect_emotion (crop frame r)) faces;
      video_frames rest (emotions ++ found)
  end.

(** The [try] block of [analyze_video]. *)
Definition analyze_video_try (video_path : string) : M (list string) :=
  '(opened, frames) ← extern (λ t, cv2_VideoCapture env t video_path);
  emotions ← (if opened : bool then video_frames frames [] else mret []);
  extern_ (cap_release env);;
  match emotions with
  | [] => mret ["neutral"]
  | _ => mret emotions
  end.

Definition analyze_video (video_path : string) : M (list string) :=
  try_except (analyze_video_try video_path) (λ e, mret ["error"]).

(** ** telegram_bot.py: Stripe webhook *)

(** [int(v)] *)
Definition py_int (v : option string) : M Z :=
  match v with
  | None => raise TypeError
  | Some s =>
      match int_of_str env s with
      | Some n => mret n
      | None => raise ValueError
      end
  end.

Definition handle_checkout_session (session : StripeObject) : M unit :=
  let user_id := client_reference_id session in
  n ← py_int user_id;
  update_one n [SetSubscribed true].

Definition handle_invoice_payment_succeeded (invoice : StripeObject) : M unit :=
  mret tt.

Definition handle_subscription_updated (subscription : StripeObject) : M unit :=
  let user_id := metadata_user_id subscription in
  if truthy user_id then
    n ← py_int user_id;
    update_one n [SetSubscribed (String.eqb (status subscription) "active")]
  else mret tt.

Definition handle_subscription_deleted (subscription : StripeObject) : M unit :=
  let user_id := metadata_user_id subscription in
  if truthy user_id then
    n ← py_int user_id;
    update_one n [SetSubscribed false]
  else mret tt.

Definition stripe_webhook (request : Request) : M (Body * Z) :=
  r ← try_except
        (event ← extern (λ t, stripe_Webhook_construct_event env t
                                (payload request) (sig_header request)
                                (STRIPE_WEBHOOK_SECRET env));
         mret (inr event))
        (λ e, match e with
              | ValueError => mret (inl (JsonError "Invalid payload", 400))
              | SignatureVerificationError =>
                  mret (inl (JsonError "Invalid signature", 400))
              | _ => raise e
              end);
  match r with
  | inl response => mret response
  | inr event =>
      (if String.eqb (event_type event) "checkout.session.completed" then
         handle_checkout_session (data_object event)
       else if String.eqb (event_type event) "invoice.payment_succeeded" then
         handle_invoice_payment_succeeded (data_object event)
       else if String.eqb (event_type event) "customer.subscription.updated" then
         handle_subscription_updated (data_object event)
       else if String.eqb (event_type event) "customer.subscription.deleted" then
         handle_subscription_deleted (data_object event)
       else mret tt);;
      mret (EmptyBody, 200)
  end.

(** ** telegram_bot.py: Telegram handlers *)

Definition reply_text (text : string) : M unit :=
  extern_ (λ t, telegram_reply_text env t text);;
  emit (Reply text).

Definition get_groq_response (prompt : string) : M string :=
  emit (GroqRequest prompt);;
  extern (λ t, groq env t prompt).

Definition new_user (uid : Z) : Doc := mkDoc uid 0 false [].

Definition welcome_message : string :=
  "🤖 The first AI life coach available 24/7 used by thousands of people" +:+ nl +:+ nl +:+
  "📜 Disclaimer" +:+ nl +:+
  "By continuing, you agree to understand I am an AI life coach. I am not a licensed psychologist, " +:+
  "therapist, or healthcare professional and do not replace the care of those. I cannot take any " +:+
  "responsibility for the results of your actions, and any harm you suffer as a result of the use, or " +:+
  "non-use of the information available. Use judgment and due diligence before taking any action or plan " +:+
  "suggested. Do not use if you feel in danger to yourself or others, instead find a professional at findahelpline.com" +:+ nl +:+ nl +:+
  "✅ Reframe your negative thoughts" +:+ nl +:+
  "✅ Take action and get unstuck" +:+ nl +:+
  "✅ Get you fit which helps your mind" +:+ nl +:+
  "✅ Talk you through your day" +:+ nl +:+
  "✅ Feel better by checking up on you" +:+ nl +:+ nl +:+
  "You can" +:+ nl +:+
  "Write /reset at any moment to delete your entire convo history from our servers" +:+ nl +:+ nl.

Definition start (update : Update) : M unit :=
  let user_id := from_user_id update in
  found ← find_one user_id;
  match found with
  | None => insert_one (new_user user_id)
  | Some _ => mret tt
  end;;
  reply_text welcome_message.

Definition reset (update : Update) : M unit :=
  let user_id := from_user_id update in
  update_one user_id [SetConversationHistory []];;
  reply_text "Your conversation history has been reset.".

Definition create_checkout_session (user_id : Z) : M string :=
  let reference := pretty user_id in
  emit (CheckoutSessionCreate reference);;
  extern (λ t, stripe_checkout_Session_create env t reference).

Definition is_subscription_active (user_data : option Doc) : bool :=
  match user_data with
  | Some d => subscribed d
  | None => false
  end.

(** ["\n".join([f"User: {msg['user']}\nBot: {msg['bot']}" for msg in history])] *)
Definition conversation_history_text (history : list Turn) : string :=
  String.concat nl
    (map (λ msg, "User: " +:+ fmt (user msg) +:+ nl +:+ "Bot: " +:+ bot msg) history).

(** The [try] block of either branch of [handle_message] (lines 160-169 and
    174-183), which differ only in where the user's text comes from. *)
Definition generate_and_store (user_id : Z) (history_text : string)
    (user_message : option string) : M unit :=
  let full_message := history_text +:+ nl +:+ "User: " +:+ fmt user_message in
  try_except
    (response ← get_groq_response full_message;
     reply_text response;;
     update_one user_id
       [IncMessageCount 1; PushConversationHistory (mkTurn user_message response)])
    (λ e, reply_text "Sorry, I couldn't process your request.").

Definition handle_message (update : Update) (response_text : option string)
  : M unit :=
  let user_id := from_user_id update in
  user_data ← find_one user_id;
  user_data ← match user_data with
              | None => insert_one (new_user user_id);; find_one user_id
              | Some _ => mret user_data
              end;
  gate ← (if is_subscription_active user_data then mret true
          else match user_data with
               | Some d => mret (message_count d <? 10)
               | None => raise TypeError
               end);
  if gate : bool then
    match user_data with
    | None => raise AttributeError
    | Some d =>
        let history_text := conversation_history_text (conversation_history d) in
        if truthy response_text
        then generate_and_store user_id history_text response_text
        else generate_and_store user_id history_text (text update)
    end
  else
    subscription_url ← create_checkout_session user_id;
    reply_text ("To continue using the service, please subscribe: " +:+ subscription_url).

(** Lines 218-227, the [try] block of [handle_photo] up to the call of
    [handle_message]: download, local write, classification, prompt. *)
Definition photo_prompt (update : Update) : M string :=
  file_id ← match last (photo update) with
             | Some p => mret p
             | None => raise IndexError
             end;
  file ← extern (λ t, telegram_get_file env t file_id);
  photo_bytes ← extern (λ t, telegram_download_as_bytearray env t file);
  let image_path := "downloads/photo.jpg" in
  extern_ (λ t, os_makedirs env t "downloads");;
  extern_ (λ t, open_write env t image_path photo_bytes);;
  emotions ← analyze_image image_path;
  mret ("Detected emotions in the image: " +:+ String.concat ", " emotions +:+ "." +:+ nl +:+
        "Generate a response based on these emotions.").

Definition handle_photo (update : Update) : M unit :=
  try_except
    (response_text ← photo_prompt update;
     handle_message update (Some response_text))
    (λ e, reply_text "Sorry, I couldn't process the image.").

(** Lines 236-246, the [try] block of [handle_voice] up to the call of
    [handle_message]. *)
Definition voice_prompt (update : Update) : M string :=
  file_id ← match voice update with
             | Some v => mret v
             | None => raise AttributeError
             end;
  file ← extern (λ t, telegram_get_file env t file_id);
  audio_bytes ← extern (λ t, telegram_download_as_bytearray env t file);
  let audio_path := "downloads/audio.oga" in
  extern_ (λ t, os_makedirs env t "downloads");;
  extern_ (λ t, open_write env t audio_path audio_bytes);;
  '(text, sentiment) ← analyze_audio audio_path;
  label ← match sentiment : list string with
          | l :: _ => mret l
          | [] => raise IndexError
          end;
  mret ("User's sentiment: " +:+ label +:+ "." +:+ nl +:+
        "User's message: " +:+ text +:+ nl +:+ "Response:").

Definition handle_voice (update : Update) : M unit :=
  try_except
    (response_text ← voice_prompt update;
     handle_message update (Some response_text))
    (λ e, reply_text "Sorry, I couldn't process the audio message.").

(** Lines 255-265, the [try] block of [handle_video] up to the call of
    [handle_message]. *)
Definition video_prompt (update : Update) : M string :=
  file_id ← match video update with
             | Some v => mret v
             | None => raise AttributeError
             end;
  file ← extern (λ t, telegram_get_file env t file_id);
  video_bytes ← extern (λ t, telegram_download_as_bytearray env t file);
  let video_path := "downloads/video.mp4" in
  extern_ (λ t, os_makedirs env t "downloads");;
  extern_ (λ t, open_write env t video_path video_bytes);;
  emotions ← analyze_video video_path;
  mret ("Detected emotions in the video: " +:+ String.concat ", " emotions +:+ "." +:+ nl +:+
        "Generate a response based on these emotions.").

Definition handle_video (update : Update) : M unit :=
  try_except
    (response_text ← video_prompt update;
     handle_message update (Some response_text))
    (λ e, reply_text "Sorry, I couldn't process the video message.").

(** ** Dispatch *)

(** What [start_telegram_bot] and the Flask route register: one constructor
    per handler. *)
Inductive Op :=
| OpStart (u : Update)
| OpReset (u : Update)
| OpText (u : Update)
| OpPhoto (u : Update)
| OpVoice (u : Update)
| OpVideo (u : Update)
| OpWebhook (r : Request).

Definition run (op : Op) : M unit :=
  match op with
  | OpStart u => start u
  | OpReset u => reset u
  | OpText u => handle_message u None
  | OpPhoto u => handle_photo u
  | OpVoice u => handle_voice u
  | OpVideo u => handle_video u
  | OpWebhook r => _ ← stripe_webhook r; mret tt
  end.

(** The world after an operation, whether it returned or raised. *)
Definition step (op : Op) (w : World) : World := (run op w).2.

Definition steps (ops : list Op) (w : World) : World :=
  fold_left (λ w op, step op w) ops w.

End Program.

Definition is_telegram (op : Op) : bool :=
  match op with OpWebhook _ => false | _ => true end.

Definition sender (op : Op) : option Z :=
  match op with
  | OpStart u | OpReset u | OpText u | OpPhoto u | OpVoice u | OpVideo u =>
      Some (from_user_id u)
  | OpWebhook _ => None
  end.

(** ** Vocabulary of the statements *)

(** Lines 147-149 of [handle_message] and 118-119 of [start], on the
    collection: insert a fresh document unless one is found. *)
Definition ensure_user (uid : Z) (l : list Doc) : list Doc :=
  match find_first uid l with
  | None => l ++ [new_user uid]
  | Some _ => l
  end.

(** The update document written after a delivered reply. *)
Definition inc_push (t : Turn) : list FieldOp :=
  [IncMessageCount 1; PushConversationHistory t].

(** The gate of line 151 on a found document. *)
Definition gate_open (d : Doc) : bool :=
  subscribed d || (message_count d <? 10).

(** The prompt sent to the language model for a document and a user text. *)
Definition prompt_for (d : Doc) (user_message : option string) : string :=
  conversation_history_text (conversation_history d) +:+ nl +:+
  "User: " +:+ fmt user_message.

(** The text [handle_message] answers: [response_text] when truthy, else
    [update.message.text]. *)
Definition message_of (u : Update) (response_text : option string) : option string :=
  if truthy response_text then response_text else text u.

(** A computation that touches neither the collection nor the trace. *)
Definition quiet {A} (m : M A) : Prop :=
  ∀ w, users_collection (m w).2 = users_collection w ∧ trace (m w).2 = trace w.

(** The part of a media handler that runs before [handle_message]. *)
Definition media_prompt (env : Env) (op : Op) : option (M string) :=
  match op with
  | OpPhoto u => Some (photo_prompt env u)
  | OpVoice u => Some (voice_prompt env u)
  | OpVideo u => Some (video_prompt env u)
  | _ => None
  end.

(** The apology of a media handler's [except] clause. *)
Definition media_apology (op : Op) : string :=
  match op with
  | OpPhoto _ => "Sorry, I couldn't process the image."
  | OpVoice _ => "Sorry, I couldn't process the audio message."
  | OpVideo _ => "Sorry, I couldn't process the video message."
  | _ => ""
  end.

(** Each document of [l] is found at the same position in [l'], related by [r]. *)
Definition pointwise (r : Doc → Doc → Prop) (l l' : list Doc) : Prop :=
  ∀ (i : nat) d, l !! i = Some d → ∃ d', l' !! i = Some d' ∧ r d d'.

(** What an operation can do to the collection. *)
Definition effect (op : Op) (l l' : list Doc) : Prop :=
  match op with
  | OpStart u => l' = ensure_user (from_user_id u) l
  | OpReset u =>
      l' = update_first (from_user_id u) (apply_update [SetConversationHistory []]) l
  | OpText u | OpPhoto u | OpVoice u | OpVideo u =>
      l' = l ∨ l' = ensure_user (from_user_id u) l ∨
      ∃ t, l' = update_first (from_user_id u) (apply_update (inc_push t))
                  (ensure_user (from_user_id u) l)
  | OpWebhook _ =>
      l' = l ∨ ∃ n b, l' = update_first n (apply_update [SetSubscribed b]) l
  end.

(** The paywall branch of [handle_message] (lines 185-186). *)
Definition paywall (env : Env) (uid : Z) : M unit :=
  subscription_url ← create_checkout_session env uid;
  reply_text env ("To continue using the service, please subscribe: " +:+ subscription_url).

Definition apology : string := "Sorry, I couldn't process your request.".

Definition logged (e : Event) (w : World) : World :=
  mkWorld (users_collection w) (trace w ++ [e]) (clock w).

(** Whether an operation gets as far as inserting the sender's record when it
    is missing: [start] and a text message always do; a media handler does
    once everything before its call of [handle_message] has returned. *)
Definition ensures_record (env : Env) (op : Op) (w : World) : bool :=
  match op with
  | OpStart _ | OpText _ => true
  | OpPhoto _ | OpVoice _ | OpVideo _ =>
      match media_prompt env op with
      | Some m => match (m w).1 with Ok _ => true | Raise _ => false end
      | None => false
      end
  | OpReset _ | OpWebhook _ => false
  end.

(** The branch on [event['type']] of [stripe_webhook] (lines 60-73). *)
Definition dispatch_event (env : Env) (event : StripeEvent) : M unit :=
  if String.eqb (event_type event) "checkout.session.completed" then
    handle_checkout_session env (data_object event)
  else if String.eqb (event_type event) "invoice.payment_succeeded" then
    handle_invoice_payment_succeeded (data_object event)
  else if String.eqb (event_type event) "customer.subscription.updated" then
    handle_subscription_updated env (data_object event)
  else if String.eqb (event_type event) "customer.subscription.deleted" then
    handle_subscription_deleted env (data_object event)
  else mret tt.

(** The messages delivered to the user, in order. *)
Definition replies (tr : list Event) : list string :=
  omap (λ e, match e with Reply s => Some s | _ => None end) tr.

(** A computation that, when it returns, has delivered exactly one message to
    the user, and when it raises has delivered none. *)
Definition answers_once {A} (m : M A) : Prop :=
  ∀ w,
    match m w with
    | (Ok _, w') => ∃ s, replies (trace w') = replies (trace w) ++ [s]
    | (Raise _, w') => replies (trace w') = replies (trace w)
    end.

(** The count of an unsubscribed or subscribed user after [n] more processed
    attempts, starting from count [k]. *)
Definition count_after (is_subscribed : bool) (k : Z) (n : nat) : Z :=
  if is_subscribed then k + Z.of_nat n
  else if k <? 10 then Z.min (k + Z.of_nat n) 10 else k.





(** ** Sample environments and worlds *)

Fixpoint decimal_go (s : string) (acc : Z) : option Z :=
  match s with
  | EmptyString => Some acc
  | String c s' =>
      let n := Z.of_nat (nat_of_ascii c) in
      if (48 <=? n) && (n <=? 57) then decimal_go s' (10 * acc + (n - 48)) else None
  end.

Definition decimal (s : string) : option Z :=
  match s with
  | EmptyString => None
  | String "-" s' => match s' with
                     | EmptyString => None
                     | _ => Z.opp <$> decimal_go s' 0
                     end
  | _ => decimal_go s 0
  end.

Definition one_pixel : Image := [[[0; 0; 0]]].

(** An environment in which every call succeeds, except as the arguments say:
    the answer of the language model, of the download, of [cv2.imread], of
    the signature check, and of sending a message. *)
Definition sample_env
    (llm : exn + string)
    (download : exn + list Byte.byte)
    (imread : exn + option Image)
    (event : exn + StripeEvent)
    (send : string → option exn) : Env :=
  {| STRIPE_WEBHOOK_SECRET := Some "whsec_test";
     groq := λ _ _, llm;
     telegram_reply_text := λ _ s, send s;
     telegram_get_file := λ _ file_id, inr file_id;
     telegram_download_as_bytearray := λ _ _, download;
     os_makedirs := λ _ _, None;
     open_write := λ _ _ _, None;
     stripe_checkout_Session_create := λ _ reference,
       inr ("https://checkout.stripe.com/pay/" +:+ reference);
     stripe_Webhook_construct_event := λ _ _ _ _, event;
     int_of_str := decimal;
     cv2_imread := λ _ _, imread;
     cv2_cvtColor := λ _ image, inr image;
     detectMultiScale := λ _ _, inr [(0, 0, 1, 1)%nat];
     FER_detect_emotions := λ _ _, inr [[("angry", 5); ("happy", 80); ("sad", 15)]];
     cv2_VideoCapture := λ _ _, inr (true, [one_pixel]);
     cap_release := λ _, None;
     AudioSegment_from_file := λ _ _, None;
     AudioSegment_export := λ _ _, None;
     recognizer_record := λ _ _, None;
     recognize_google := λ _ _, inr "i feel stuck";
     sentiment_analyzer := λ _ _, inr ["NEGATIVE"] |}.

Definition no_event : exn + StripeEvent := inl ValueError.

(** Everything works and the model answers "I hear you.". *)
Definition calm : Env :=
  sample_env (inr "I hear you.") (inr []) (inr (Some one_pixel)) no_event (λ _, None).

(** The download of the media file times out. *)
Definition no_download : Env :=
  sample_env (inr "I hear you.") (inl (LibraryError "timed out"))
    (inr (Some one_pixel)) no_event (λ _, None).

(** [cv2.imread] cannot decode the downloaded file and returns [None]. *)
Definition bad_image : Env :=
  sample_env (inr "I hear you.") (inr []) (inr None) no_event (λ _, None).

(** The language model is unavailable. *)
Definition no_llm : Env :=
  sample_env (inl (LibraryError "rate limit")) (inr []) (inr (Some one_pixel))
    no_event (λ _, None).

(** Stripe delivers a verified event. *)
Definition with_event (ty : string) (o : StripeObject) : Env :=
  sample_env (inr "I hear you.") (inr []) (inr (Some one_pixel))
    (inr (mkStripeEvent ty o)) (λ _, None).

(** Stripe cannot create checkout sessions; everything else works. *)
Definition stripe_down : Env :=
  {| STRIPE_WEBHOOK_SECRET := STRIPE_WEBHOOK_SECRET calm;
     groq := groq calm;
     telegram_reply_text := telegram_reply_text calm;
     telegram_get_file := telegram_get_file calm;
     telegram_download_as_bytearray := telegram_download_as_bytearray calm;
     os_makedirs := os_makedirs calm;
     open_write := open_write calm;
     stripe_checkout_Session_create := λ _ _, inl (LibraryError "stripe is down");
     stripe_Webhook_construct_event := stripe_Webhook_construct_event calm;
     int_of_str := int_of_str calm;
     cv2_imread := cv2_imread calm;
     cv2_cvtColor := cv2_cvtColor calm;
     detectMultiScale := detectMultiScale calm;
     FER_detect_emotions := FER_detect_emotions calm;
     cv2_VideoCapture := cv2_VideoCapture calm;
     cap_release := cap_release calm;
     AudioSegment_from_file := AudioSegment_from_file calm;
     AudioSegment_export := AudioSegment_export calm;
     recognizer_record := recognizer_record calm;
     recognize_google := recognize_google calm;
     sentiment_analyzer := sentiment_analyzer calm |}.

Definition webhook_request : Request := mkRequest "{}" (Some "t=1,v1=0").

Definition text_update (uid : Z) (s : string) : Update :=
  mkUpdate uid (Some s) [] None None.

Definition photo_update (uid : Z) : Update :=
  mkUpdate uid None ["small"; "large"] None None.

Definition voice_update (uid : Z) : Update :=
  mkUpdate uid None [] (Some "voice-1") None.

Definition video_update (uid : Z) : Update :=
  mkUpdate uid None [] None (Some "video-1").

Definition world_of (l : list Doc) : World := mkWorld l [] 0.

(** ** Reasoning about computations *)

Ltac unfold_M :=
  unfold mbind, mret, M_bind, M_ret, try_except, raise, extern, extern_, emit,
    find_one, insert_one, update_one, tick in *.

Ltac world_simpl := cbn [fst snd users_collection trace clock] in *.

Ltac world_norm := unfold logged, tick in *; world_simpl.

Lemma bind_run {A B} (m : M A) (k : A → M B) w :
  (m ≫= k) w =
  match m w with
  | (Ok a, w') => k a w'
  | (Raise e, w') => (Raise e, w')
  end.
Proof. reflexivity. Qed.

Lemma try_except_run {A} (m : M A) (h : exn → M A) w :
  try_except m h w =
  match m w with
  | (Ok a, w') => (Ok a, w')
  | (Raise e, w') => h e w'
  end.
Proof. reflexivity. Qed.

Create HintDb quiet.

Lemma quiet_ret {A} (a : A) : quiet (mret a).
Proof. by intros w. Qed.

Lemma quiet_raise {A} e : quiet (@raise A e).
Proof. by intros w. Qed.

Lemma quiet_extern {A} (f : nat → exn + A) : quiet (extern f).
Proof. by intros w. Qed.

Lemma quiet_extern_ f : quiet (extern_ f).
Proof. by intros w. Qed.

Lemma quiet_bind {A B} (m : M A) (k : A → M B) :
  quiet m → (∀ a, quiet (k a)) → quiet (m ≫= k).
Proof.
  intros Hm Hk w. rewrite bind_run.
  destruct (m w) as [[a|e] w1] eqn:E; specialize (Hm w); rewrite E in Hm.
  - destruct (Hk a w1) as [-> ->]. exact Hm.
  - exact Hm.
Qed.

Lemma quiet_try {A} (m : M A) (h : exn → M A) :
  quiet m → (∀ e, quiet (h e)) → quiet (try_except m h).
Proof.
  intros Hm Hh w. rewrite try_except_run.
  destruct (m w) as [[a|e] w1] eqn:E; specialize (Hm w); rewrite E in Hm.
  - exact Hm.
  - destruct (Hh e w1) as [-> ->]. exact Hm.
Qed.

Lemma quiet_mapM {A B} (f : A → M B) (l : list A) :
  (∀ a, quiet (f a)) → quiet (mapM f l).
Proof.
  intros Hf. induction l as [|a l IH]; simpl.
  - apply quiet_ret.
  - apply quiet_bind; [apply Hf|]. intros b.
    apply quiet_bind; [exact IH|]. intros bs. apply quiet_ret.
Qed.

#[local] Hint Resolve quiet_ret quiet_raise quiet_extern quiet_extern_ : quiet.

(** One step of a frame proof: a known quiet computation, or a combinator. *)
Ltac quiet_step :=
  first
    [ solve [auto with quiet]
    | apply quiet_try; [|intros ?]
    | apply quiet_bind; [|intros ?]
    | apply quiet_mapM; intros ?
    | progress case_match ].

Ltac quiet_auto := repeat quiet_step.

Lemma quiet_max_key d : quiet (max_key d).
Proof. destruct d; simpl; auto with quiet. Qed.

Lemma quiet_detect_emotion env face : quiet (detect_emotion env face).
Proof.
  unfold detect_emotion. apply quiet_bind; [apply quiet_extern|].
  intros [|e0 ?]; [apply quiet_ret | apply quiet_max_key].
Qed.

#[local] Hint Resolve quiet_detect_emotion : quiet.

Lemma quiet_analyze_image env path : quiet (analyze_image env path).
Proof.
  unfold analyze_image, analyze_image_try. quiet_auto.
Qed.

Lemma quiet_analyze_audio env path : quiet (analyze_audio env path).
Proof. unfold analyze_audio, analyze_audio_try. quiet_auto. Qed.

Lemma quiet_video_frames env frames emotions :
  quiet (video_frames env frames emotions).
Proof.
  revert emotions. induction frames as [|frame rest IH]; intros emotions; simpl.
  - apply quiet_ret.
  - repeat first [ apply IH | quiet_step ].
Qed.

Lemma quiet_analyze_video env path : quiet (analyze_video env path).
Proof.
  unfold analyze_video, analyze_video_try.
  pose proof (quiet_video_frames env). quiet_auto.
Qed.

#[local] Hint Resolve quiet_analyze_image quiet_analyze_audio quiet_analyze_video : quiet.

Lemma quiet_photo_prompt env u : quiet (photo_prompt env u).
Proof.
  unfold photo_prompt. quiet_auto.
Qed.

Lemma quiet_voice_prompt env u : quiet (voice_prompt env u).
Proof.
  unfold voice_prompt. quiet_auto.
Qed.

Lemma quiet_video_prompt env u : quiet (video_prompt env u).
Proof.
  unfold video_prompt. quiet_auto.
Qed.

Lemma quiet_media_prompt env op m : media_prompt env op = Some m → quiet m.
Proof.
  destruct op; simpl; intros; simplify_eq;
    auto using quiet_photo_prompt, quiet_voice_prompt, quiet_video_prompt.
Qed.

(** ** The collection *)

Lemma apply_update_user_id upd d : user_id (apply_update upd d) = user_id d.
Proof.
  unfold apply_update. revert d.
  induction upd as [|o upd IH]; intros d; simpl; [done|].
  rewrite IH. by destruct o.
Qed.

Lemma find_first_user_id uid l d : find_first uid l = Some d → user_id d = uid.
Proof.
  induction l as [|x l IH]; simpl; [done|].
  destruct (Z.eqb_spec (user_id x) uid); intros; simplify_eq; auto.
Qed.

Lemma find_first_app_l uid l k d :
  find_first uid l = Some d → find_first uid (l ++ k) = Some d.
Proof.
  induction l as [|x l IH]; simpl; [done|]. by destruct (user_id x =? uid).
Qed.

Lemma find_first_app_None uid l k :
  find_first uid l = None → find_first uid (l ++ k) = find_first uid k.
Proof.
  induction l as [|x l IH]; simpl; [done|]. by destruct (user_id x =? uid).
Qed.

Lemma find_first_ensure_user uid l :
  find_first uid (ensure_user uid l) =
  Some (default (new_user uid) (find_first uid l)).
Proof.
  unfold ensure_user. destruct (find_first uid l) eqn:E; simpl; [done|].
  rewrite find_first_app_None by done. simpl. by rewrite Z.eqb_refl.
Qed.

Lemma find_first_ensure_user_mono uid uid' l d :
  find_first uid' l = Some d → find_first uid' (ensure_user uid l) = Some d.
Proof.
  intros H. unfold ensure_user. destruct (find_first uid l); [done|].
  by apply find_first_app_l.
Qed.

Lemma find_first_update_first uid l (f : Doc → Doc) d :
  (∀ x, user_id (f x) = user_id x) →
  find_first uid l = Some d →
  find_first uid (update_first uid f l) = Some (f d).
Proof.
  intros Hf. induction l as [|x l IH]; simpl; [done|].
  destruct (Z.eqb_spec (user_id x) uid) as [E|E]; simpl.
  - intros; simplify_eq. rewrite Hf. by rewrite Z.eqb_refl.
  - destruct (Z.eqb_spec (user_id x) uid); [done|]. exact IH.
Qed.

Lemma find_first_update_first_ne uid uid' l (f : Doc → Doc) :
  (∀ x, user_id (f x) = user_id x) →
  uid' ≠ uid →
  find_first uid' (update_first uid f l) = find_first uid' l.
Proof.
  intros Hf Hne. induction l as [|x l IH]; simpl; [done|].
  destruct (Z.eqb_spec (user_id x) uid) as [E|E]; simpl.
  - rewrite Hf. destruct (Z.eqb_spec (user_id x) uid'); [congruence|done].
  - by rewrite IH.
Qed.

Lemma find_first_update_first_is_Some uid uid' l (f : Doc → Doc) :
  (∀ x, user_id (f x) = user_id x) →
  is_Some (find_first uid' l) → is_Some (find_first uid' (update_first uid f l)).
Proof.
  intros Hf [d Hd]. destruct (decide (uid' = uid)) as [->|Hne].
  - rewrite (find_first_update_first _ _ _ d) by done. eauto.
  - rewrite find_first_update_first_ne by done. eauto.
Qed.

Lemma update_first_missing uid f l :
  find_first uid l = None → update_first uid f l = l.
Proof.
  induction l as [|x l IH]; simpl; [done|].
  destruct (user_id x =? uid); [done|]. intros H. by rewrite IH.
Qed.

Lemma length_update_first uid f l : length (update_first uid f l) = length l.
Proof.
  induction l as [|x l IH]; simpl; [done|].
  destruct (user_id x =? uid); simpl; by rewrite ?IH.
Qed.

(** A document keeps its position under [update_first]; it is rewritten only
    if it carries the user id. *)
Lemma lookup_update_first uid f l (i : nat) d :
  l !! i = Some d →
  update_first uid f l !! i = Some d ∨
  (user_id d = uid ∧ find_first uid l = Some d ∧ update_first uid f l !! i = Some (f d)).
Proof.
  revert i. induction l as [|x l IH]; intros i; simpl; [done|].
  destruct (Z.eqb_spec (user_id x) uid) as [E|E].
  - destruct i as [|i]; simpl; intros; simplify_eq; auto.
  - destruct i as [|i]; simpl; intros; simplify_eq; auto.
Qed.

Lemma lookup_ensure_user uid l (i : nat) d :
  l !! i = Some d → ensure_user uid l !! i = Some d.
Proof.
  intros H. unfold ensure_user. destruct (find_first uid l); [done|].
  by apply lookup_app_l_Some.
Qed.

(** ** The handlers, run *)

Lemma reply_text_run env s w :
  reply_text env s w =
  match telegram_reply_text env (clock w) s with
  | Some e => (Raise e, tick w)
  | None => (Ok tt, logged (Reply s) (tick w))
  end.
Proof.
  unfold reply_text, logged. unfold_M.
  by destruct (telegram_reply_text env (clock w) s).
Qed.

Lemma reply_text_users env s w :
  users_collection (reply_text env s w).2 = users_collection w.
Proof. rewrite reply_text_run. by destruct (telegram_reply_text _ _ _). Qed.

Lemma generate_and_store_run env uid ht msg w :
  generate_and_store env uid ht msg w =
  let p := ht +:+ nl +:+ "User: " +:+ fmt msg in
  let w1 := tick (logged (GroqRequest p) w) in
  match groq env (clock w) p with
  | inl e => reply_text env apology w1
  | inr response =>
      match telegram_reply_text env (S (clock w)) response with
      | Some e => reply_text env apology (tick w1)
      | None =>
          let upd := inc_push (mkTurn msg response) in
          (Ok tt,
           mkWorld (update_first uid (apply_update upd) (users_collection w))
                   (trace w ++ [GroqRequest p; Reply response; DbUpdate uid upd])
                   (S (S (clock w))))
      end
  end.
Proof.
  unfold generate_and_store, get_groq_response, logged, apology.
  rewrite try_except_run, !bind_run. unfold emit. world_simpl.
  unfold extern at 1. world_simpl.
  destruct (groq env (clock w) _) as [e|response]; [done|].
  rewrite bind_run, reply_text_run. unfold tick at 1 2. world_simpl.
  destruct (telegram_reply_text env (S (clock w)) response); [done|].
  unfold update_one, logged, tick. world_simpl.
  by rewrite <- !app_assoc.
Qed.

Lemma paywall_run env uid w :
  paywall env uid w =
  let w1 := tick (logged (CheckoutSessionCreate (pretty uid)) w) in
  match stripe_checkout_Session_create env (clock w) (pretty uid) with
  | inl e => (Raise e, w1)
  | inr url =>
      reply_text env ("To continue using the service, please subscribe: " +:+ url) w1
  end.
Proof.
  unfold paywall, create_checkout_session, logged.
  rewrite !bind_run. unfold emit, extern. world_simpl.
  by destruct (stripe_checkout_Session_create _ _ _).
Qed.

Lemma handle_message_found env u rt w d :
  find_first (from_user_id u) (users_collection w) = Some d →
  handle_message env u rt w =
  if gate_open d
  then generate_and_store env (from_user_id u)
         (conversation_history_text (conversation_history d)) (message_of u rt) w
  else paywall env (from_user_id u) w.
Proof.
  intros H. unfold handle_message, gate_open, message_of, paywall, is_subscription_active.
  rewrite bind_run. unfold find_one at 1. rewrite H.
  rewrite bind_run. unfold mret at 1, M_ret at 1.
  destruct (subscribed d); simpl.
  - rewrite bind_run. unfold mret at 1, M_ret at 1. by destruct (truthy rt).
  - rewrite bind_run. unfold mret at 1, M_ret at 1.
    destruct (message_count d <? 10); [by destruct (truthy rt)|done].
Qed.

Lemma handle_message_missing env u rt w :
  find_first (from_user_id u) (users_collection w) = None →
  handle_message env u rt w =
  generate_and_store env (from_user_id u) (conversation_history_text [])
    (message_of u rt)
    (mkWorld (users_collection w ++ [new_user (from_user_id u)])
             (trace w ++ [DbInsert (new_user (from_user_id u))]) (clock w)).
Proof.
  intros H. unfold handle_message, message_of, is_subscription_active.
  rewrite bind_run. unfold find_one at 1. rewrite H.
  rewrite !bind_run. unfold insert_one, find_one. world_simpl.
  rewrite find_first_app_None by done. simpl. rewrite Z.eqb_refl. simpl.
  rewrite bind_run. unfold mret at 1, M_ret at 1. by destruct (truthy rt).
Qed.

Lemma generate_and_store_users env uid ht msg w :
  let l' := users_collection (generate_and_store env uid ht msg w).2 in
  l' = users_collection w ∨
  ∃ t, l' = update_first uid (apply_update (inc_push t)) (users_collection w).
Proof.
  rewrite generate_and_store_run. cbv zeta.
  destruct (groq env _ _) as [e|response].
  - left. by rewrite reply_text_users.
  - destruct (telegram_reply_text env _ response).
    + left. by rewrite reply_text_users.
    + right. by eexists.
Qed.

Lemma paywall_users env uid w :
  users_collection (paywall env uid w).2 = users_collection w.
Proof.
  rewrite paywall_run. cbv zeta.
  destruct (stripe_checkout_Session_create env _ _); [done|].
  by rewrite reply_text_users.
Qed.

Lemma handle_message_users env u rt w :
  let uid := from_user_id u in
  let l := ensure_user uid (users_collection w) in
  let l' := users_collection (handle_message env u rt w).2 in
  l' = l ∨ ∃ t, l' = update_first uid (apply_update (inc_push t)) l.
Proof.
  cbv zeta. unfold ensure_user.
  destruct (find_first (from_user_id u) (users_collection w)) as [d|] eqn:E.
  - rewrite (handle_message_found _ _ _ _ d) by done.
    destruct (gate_open d).
    + apply generate_and_store_users.
    + left. apply paywall_users.
  - rewrite handle_message_missing by done. apply generate_and_store_users.
Qed.

(** The shape shared by [handle_photo], [handle_voice] and [handle_video]. *)
Lemma media_handler_users env u (prompt : M string) s w :
  quiet prompt →
  effect (OpText u) (users_collection w)
    (users_collection
       (try_except (response_text ← prompt; handle_message env u (Some response_text))
          (λ _, reply_text env s) w).2).
Proof.
  intros Hq. rewrite try_except_run, bind_run.
  destruct (Hq w) as [Hu _].
  destruct (prompt w) as [[rt|e] w1]; world_simpl.
  - pose proof (handle_message_users env u (Some rt) w1) as H. cbv zeta in H.
    rewrite Hu in H.
    destruct (handle_message env u (Some rt) w1) as [[[]|e] w2]; world_simpl;
      rewrite ?reply_text_users; simpl; tauto.
  - rewrite reply_text_users. simpl. auto.
Qed.

Lemma py_int_run env v w :
  py_int env v w =
  match v with
  | None => (Raise TypeError, w)
  | Some s =>
      match int_of_str env s with
      | Some n => (Ok n, w)
      | None => (Raise ValueError, w)
      end
  end.
Proof. unfold py_int. destruct v; [|done]. by destruct (int_of_str env s). Qed.

Lemma set_subscribed_users env v b w :
  let l' := users_collection
              ((n ← py_int env v; update_one n [SetSubscribed b]) w).2 in
  l' = users_collection w ∨
  ∃ n, l' = update_first n (apply_update [SetSubscribed b]) (users_collection w).
Proof.
  cbv zeta. rewrite bind_run, py_int_run.
  destruct v as [s|]; [|by left].
  destruct (int_of_str env s); [|by left]. right. by eexists.
Qed.

Lemma bind_users_const {A B} (m : M A) (b : B) w :
  users_collection ((m ≫= λ _, mret b) w).2 = users_collection (m w).2.
Proof. rewrite bind_run. by destruct (m w) as [[?|?] ?]. Qed.

Lemma stripe_webhook_verified env req w ev :
  stripe_Webhook_construct_event env (clock w) (payload req) (sig_header req)
    (STRIPE_WEBHOOK_SECRET env) = inr ev →
  stripe_webhook env req w =
  (dispatch_event env ev;; mret (EmptyBody, 200)) (tick w).
Proof.
  intros Hev. unfold stripe_webhook, dispatch_event.
  rewrite bind_run, try_except_run, bind_run.
  unfold extern at 1. rewrite Hev. reflexivity.
Qed.

Lemma stripe_webhook_users env r w :
  effect (OpWebhook r) (users_collection w)
    (users_collection (stripe_webhook env r w).2).
Proof.
  unfold stripe_webhook. rewrite bind_run, try_except_run, bind_run.
  unfold extern at 1.
  destruct (stripe_Webhook_construct_event env _ _ _ _) as [e|event]; world_simpl.
  - left. by destruct e.
  - unfold mret at 1, M_ret at 1. rewrite bind_users_const.
    unfold handle_checkout_session, handle_invoice_payment_succeeded,
      handle_subscription_updated, handle_subscription_deleted.
    repeat destruct (String.eqb _ _); try destruct (truthy _); try (by left);
      match goal with
      | |- context [py_int env ?v ≫= (λ n, update_one n [SetSubscribed ?b])] =>
          destruct (set_subscribed_users env v b (tick w)) as [Hs|[n Hs]];
          [left|right]; eauto
      end.
Qed.

Lemma step_effect env op w :
  effect op (users_collection w) (users_collection (step env op w)).
Proof.
  unfold step. destruct op as [u|u|u|u|u|u|r]; cbn [run].
  - unfold start, effect, ensure_user. rewrite !bind_run. unfold find_one at 1.
    destruct (find_first _ _); rewrite bind_run;
      [unfold mret at 1, M_ret at 1 | unfold insert_one at 1];
      by rewrite reply_text_users.
  - unfold reset. rewrite bind_run. unfold update_one at 1.
    by rewrite reply_text_users.
  - pose proof (handle_message_users env u None w) as H. simpl in *. tauto.
  - apply media_handler_users, quiet_photo_prompt.
  - apply media_handler_users, quiet_voice_prompt.
  - apply media_handler_users, quiet_video_prompt.
  - rewrite bind_users_const. apply stripe_webhook_users.
Qed.

(** Every document keeps its place and its user id, and changes only by one
    of the program's three update documents, each on the operations that
    issue it. *)
Lemma effect_pointwise (r : Doc → Doc → Prop) op l l' :
  (∀ d, r d d) →
  (∀ u d, op = OpReset u → r d (apply_update [SetConversationHistory []] d)) →
  (∀ d t, is_telegram op = true → r d (apply_update (inc_push t) d)) →
  (∀ d b, is_telegram op = false → r d (apply_update [SetSubscribed b] d)) →
  effect op l l' → pointwise r l l'.
Proof.
  intros Hrefl Hreset Hmsg Hweb He i d Hi.
  assert (∀ uid f k, (∀ x, r x (f x)) → k !! i = Some d →
            ∃ d', update_first uid f k !! i = Some d' ∧ r d d') as Hupd.
  { intros uid f k Hf Hk.
    destruct (lookup_update_first uid f k i d Hk) as [?|(_ & _ & ?)]; eauto. }
  destruct op as [u|u|u|u|u|u|q]; simpl in He;
    repeat match goal with
      | H : _ ∨ _ |- _ => destruct H
      | H : ∃ _, _ |- _ => destruct H
      end; subst;
    eauto using lookup_ensure_user.
Qed.

Lemma effect_find_first op l l' uid :
  effect op l l' → is_Some (find_first uid l) → is_Some (find_first uid l').
Proof.
  intros He [d Hd].
  destruct op as [u|u|u|u|u|u|q]; simpl in He;
    repeat match goal with
      | H : _ ∨ _ |- _ => destruct H
      | H : ∃ _, _ |- _ => destruct H
      end; subst;
    eauto using find_first_ensure_user_mono, find_first_update_first_is_Some,
      apply_update_user_id.
Qed.

(** ** The paywall gate *)

(** C1. [handle_message] on a stored record: with [subscribed = false] and
    [message_count >= 10] it asks Stripe for a checkout session and sends the
    paywall link (nothing is asked of the language model and the collection
    is untouched); with [subscribed = true] or [message_count < 10] it
    proceeds to ask the language model for a reply, and on a delivered reply
    stores the exchange. *)
Theorem handle_message_paywall_gate env u rt w d :
  find_first (from_user_id u) (users_collection w) = Some d →
  let uid := from_user_id u in
  let w' := (handle_message env u rt w).2 in
  (subscribed d = false → 10 ≤ message_count d →
     users_collection w' = users_collection w ∧
     trace w' =
       trace w ++ CheckoutSessionCreate (pretty uid) ::
         match stripe_checkout_Session_create env (clock w) (pretty uid) with
         | inr url =>
             let link := "To continue using the service, please subscribe: " +:+ url in
             match telegram_reply_text env (S (clock w)) link with
             | None => [Reply link]
             | Some _ => []
             end
         | inl _ => []
         end)
  ∧
  (subscribed d = true ∨ message_count d < 10 →
     let p := prompt_for d (message_of u rt) in
     ∃ tail,
       trace w' = trace w ++ GroqRequest p :: tail ∧
       (∀ reference, CheckoutSessionCreate reference ∉ tail) ∧
       (∀ response,
          groq env (clock w) p = inr response →
          telegram_reply_text env (S (clock w)) response = None →
          tail = [Reply response;
                  DbUpdate uid (inc_push (mkTurn (message_of u rt) response))])).
Proof.
  intros Hf uid w'. subst uid w'. rewrite (handle_message_found _ _ _ _ d Hf).
  unfold gate_open. split.
  - intros -> Hc. assert ((message_count d <? 10) = false) as -> by lia. simpl.
    rewrite paywall_users, paywall_run. cbv zeta. split; [done|].
    destruct (stripe_checkout_Session_create env _ _) as [e|url]; [done|].
    rewrite reply_text_run. world_norm.
    destruct (telegram_reply_text env _ _); world_norm; [done|].
    by rewrite <- app_assoc.
  - intros Hg.
    assert (subscribed d || (message_count d <? 10) = true) as ->.
    { destruct Hg as [->|Hg]; [done|]. apply orb_true_iff. right. lia. }
    rewrite generate_and_store_run. cbv zeta. unfold prompt_for, logged, tick.
    destruct (groq env _ _) as [e|response].
    + rewrite reply_text_run. world_norm.
      destruct (telegram_reply_text env _ _); world_norm.
      * exists []. split; [done|]. split; [intros ? ?%elem_of_nil; done|done].
      * exists [Reply apology]. rewrite <- app_assoc. split; [done|].
        split; [|done]. intros ? H. by apply list_elem_of_singleton in H.
    + destruct (telegram_reply_text env (S (clock w)) response) eqn:Hr.
      * rewrite reply_text_run. world_norm.
        destruct (telegram_reply_text env _ apology); world_norm.
        -- exists []. split; [done|]. split; [intros ? ?%elem_of_nil; done|].
           intros ? ? ?; simplify_eq.
        -- exists [Reply apology]. rewrite <- app_assoc. split; [done|].
           split; [|intros ? ? ?; simplify_eq].
           intros ? H. by apply list_elem_of_singleton in H.
      * world_simpl. eexists. split; [done|].
        split; [|intros ? ? ?; by simplify_eq].
        intros ? H. apply elem_of_cons in H as [H|H]; [done|].
        by apply list_elem_of_singleton in H.
Qed.

Lemma handle_message_paywall_gate_witness :
  trace (handle_message calm (text_update 7 "hello") None
           (world_of [mkDoc 7 10 false []])).2 =
    [CheckoutSessionCreate "7";
     Reply "To continue using the service, please subscribe: https://checkout.stripe.com/pay/7"]
  ∧
  ∃ tail,
    trace (handle_message calm (text_update 7 "hello") None
             (world_of [mkDoc 7 9 false []])).2 =
      GroqRequest (nl +:+ "User: hello") :: tail.
Proof.
  split.
  - pose proof (handle_message_paywall_gate calm (text_update 7 "hello") None
                  (world_of [mkDoc 7 10 false []]) (mkDoc 7 10 false []) eq_refl) as [H _].
    simpl in H. destruct H as [_ Ht]; [reflexivity | lia | exact Ht].
  - pose proof (handle_message_paywall_gate calm (text_update 7 "hello") None
                  (world_of [mkDoc 7 9 false []]) (mkDoc 7 9 false []) eq_refl) as [_ H].
    simpl in H. destruct H as (tail & Ht & _); [right; lia | by exists tail].
Defined.

(** ** The user record under the Telegram handlers *)

Lemma handle_message_open env u rt w :
  let uid := from_user_id u in
  let d := default (new_user uid) (find_first uid (users_collection w)) in
  gate_open d = true →
  ∃ w0,
    users_collection w0 = ensure_user uid (users_collection w) ∧
    clock w0 = clock w ∧
    handle_message env u rt w =
    generate_and_store env uid (conversation_history_text (conversation_history d))
      (message_of u rt) w0.
Proof.
  cbv zeta. unfold ensure_user.
  destruct (find_first (from_user_id u) (users_collection w)) as [d|] eqn:E; simpl.
  - intros Hg. exists w. rewrite (handle_message_found _ _ _ _ d E), Hg.
    by repeat split.
  - intros _.
    exists (mkWorld (users_collection w ++ [new_user (from_user_id u)])
              (trace w ++ [DbInsert (new_user (from_user_id u))]) (clock w)).
    rewrite handle_message_missing by done. repeat split; reflexivity.
Qed.

(** C8. When generation fails, or the generated reply cannot be sent, the
    collection is left as it was once the sender's record was ensured: the
    record (the stored one, or the fresh one of a new user) has the same
    [message_count] and [conversation_history], whether or not the apology
    itself can be delivered. *)
Theorem failed_reply_leaves_record env u rt w :
  let uid := from_user_id u in
  let d := default (new_user uid) (find_first uid (users_collection w)) in
  let p := prompt_for d (message_of u rt) in
  gate_open d = true →
  ((∃ e, groq env (clock w) p = inl e) ∨
   (∃ response e, groq env (clock w) p = inr response ∧
                  telegram_reply_text env (S (clock w)) response = Some e)) →
  let w' := (handle_message env u rt w).2 in
  users_collection w' = ensure_user uid (users_collection w) ∧
  find_first uid (users_collection w') = Some d ∧
  (is_Some (find_first uid (users_collection w)) →
   users_collection w' = users_collection w).
Proof.
  intros uid d p Hg Hfail w'.
  assert (users_collection w' = ensure_user uid (users_collection w)) as Hu.
  { subst w'. destruct (handle_message_open env u rt w Hg) as (w0 & Hu0 & Hc0 & ->).
    rewrite generate_and_store_run. cbv zeta. rewrite Hc0.
    fold uid d. fold (prompt_for d (message_of u rt)). fold p.
    destruct Hfail as [[e ->]|(response & e & -> & ->)];
      by rewrite reply_text_users. }
  split; [done|]. rewrite Hu. split.
  - apply find_first_ensure_user.
  - intros [x Hx]. unfold ensure_user. by rewrite Hx.
Qed.

Lemma failed_reply_leaves_record_witness :
  users_collection
    (handle_message
       no_llm (text_update 7 "hello") None
       (world_of [mkDoc 7 3 false [mkTurn (Some "hi") "hello"]])).2
  = [mkDoc 7 3 false [mkTurn (Some "hi") "hello"]].
Proof.
  pose proof (failed_reply_leaves_record no_llm (text_update 7 "hello") None
                (world_of [mkDoc 7 3 false [mkTurn (Some "hi") "hello"]])) as H.
  cbv zeta in H. destruct H as (_ & _ & H).
  - reflexivity.
  - left. eexists. reflexivity.
  - apply H. eexists. reflexivity.
Defined.

(** C4. [message_count] is a monotonic counter: under every operation each
    document keeps its place and its user id and its count stays or grows by
    one; and a processed message (gate open, reply generated and delivered)
    raises the sender's count by exactly one. *)
Theorem message_count_monotone env :
  (∀ op w,
     pointwise
       (λ d d', user_id d' = user_id d ∧
                message_count d ≤ message_count d' ∧
                (message_count d' = message_count d ∨
                 message_count d' = message_count d + 1))
       (users_collection w) (users_collection (step env op w)))
  ∧
  (∀ u rt w response,
     let uid := from_user_id u in
     let d := default (new_user uid) (find_first uid (users_collection w)) in
     gate_open d = true →
     groq env (clock w) (prompt_for d (message_of u rt)) = inr response →
     telegram_reply_text env (S (clock w)) response = None →
     ∃ d', find_first uid (users_collection (handle_message env u rt w).2) = Some d' ∧
           message_count d' = message_count d + 1).
Proof.
  split.
  - intros op w. eapply effect_pointwise; [..|apply step_effect]; simpl; intros; lia.
  - intros u rt w response uid d Hg Hgroq Hsend.
    destruct (handle_message_open env u rt w Hg) as (w0 & Hu0 & Hc0 & ->).
    rewrite generate_and_store_run. cbv zeta. rewrite Hc0.
    fold uid d. fold (prompt_for d (message_of u rt)). rewrite Hgroq, Hsend.
    world_simpl. rewrite Hu0.
    erewrite find_first_update_first;
      [|apply apply_update_user_id|apply find_first_ensure_user].
    eexists. split; [done|]. done.
Qed.

Lemma message_count_monotone_witness :
  ∃ d', find_first 7
          (users_collection
             (handle_message calm (text_update 7 "hello") None
                (world_of [mkDoc 7 3 false []])).2) = Some d' ∧
        message_count d' = 4.
Proof.
  destruct (message_count_monotone calm) as [_ H].
  apply (H (text_update 7 "hello") None (world_of [mkDoc 7 3 false []]) "I hear you.");
    reflexivity.
Defined.

(** C5. No Telegram handler ([start], [reset], [handle_message],
    [handle_photo], [handle_voice], [handle_video]) changes the [subscribed]
    flag of an existing record: each document keeps its place, its user id
    and its flag. *)
Theorem telegram_keeps_subscribed env op w :
  is_telegram op = true →
  pointwise (λ d d', user_id d' = user_id d ∧ subscribed d' = subscribed d)
    (users_collection w) (users_collection (step env op w)).
Proof.
  intros Ht. eapply effect_pointwise; [..|apply step_effect]; simpl; try done.
  intros; congruence.
Qed.

Lemma telegram_keeps_subscribed_witness :
  ∃ d', users_collection
          (step calm (OpText (text_update 7 "hello"))
             (world_of [mkDoc 7 3 true []])) !! 0%nat = Some d' ∧
        user_id d' = 7 ∧ subscribed d' = true.
Proof.
  apply (telegram_keeps_subscribed calm (OpText (text_update 7 "hello"))
           (world_of [mkDoc 7 3 true []]) eq_refl 0%nat (mkDoc 7 3 true [])).
  reflexivity.
Defined.

(** C9. [/reset] rewrites the sender's first record with an empty
    [conversation_history] and the same [user_id], [message_count] and
    [subscribed]; every document keeps its place, its count and its flag, and
    no document is added or removed. *)
Theorem reset_clears_history_only env u w :
  let uid := from_user_id u in
  let l := users_collection w in
  let l' := users_collection (reset env u w).2 in
  l' = update_first uid
         (λ d, mkDoc (user_id d) (message_count d) (subscribed d) []) l ∧
  length l' = length l ∧
  pointwise
    (λ d d', user_id d' = user_id d ∧
             message_count d' = message_count d ∧
             subscribed d' = subscribed d ∧
             (conversation_history d' = conversation_history d ∨
              conversation_history d' = []))
    l l' ∧
  (∀ d, find_first uid l = Some d →
        find_first uid l' = Some (mkDoc uid (message_count d) (subscribed d) [])).
Proof.
  cbv zeta.
  assert (users_collection (reset env u w).2 =
          update_first (from_user_id u)
            (λ d, mkDoc (user_id d) (message_count d) (subscribed d) [])
            (users_collection w)) as ->.
  { unfold reset. rewrite bind_run. unfold update_one at 1.
    by rewrite reply_text_users. }
  split; [done|]. split; [apply length_update_first|]. split.
  - intros i d Hi.
    destruct (lookup_update_first (from_user_id u)
                (λ d, mkDoc (user_id d) (message_count d) (subscribed d) [])
                _ i d Hi) as [H|(_ & _ & H)]; eauto 10.
  - intros d Hd. erewrite find_first_update_first; [|done|exact Hd].
    by rewrite (find_first_user_id _ _ _ Hd).
Qed.

Lemma reset_clears_history_only_witness :
  find_first 7
    (users_collection
       (reset calm (text_update 7 "/reset")
          (world_of [mkDoc 7 12 true [mkTurn (Some "hi") "hello"]])).2)
  = Some (mkDoc 7 12 true []).
Proof.
  destruct (reset_clears_history_only calm (text_update 7 "/reset")
              (world_of [mkDoc 7 12 true [mkTurn (Some "hi") "hello"]]))
    as (_ & _ & _ & H).
  apply (H (mkDoc 7 12 true [mkTurn (Some "hi") "hello"])). reflexivity.
Defined.

(** ** Media handlers *)

Lemma media_handler_run env u (prompt : M string) s w :
  try_except (response_text ← prompt; handle_message env u (Some response_text))
    (λ _, reply_text env s) w =
  match prompt w with
  | (Ok rt, w1) =>
      match handle_message env u (Some rt) w1 with
      | (Ok a, w2) => (Ok a, w2)
      | (Raise _, w2) => reply_text env s w2
      end
  | (Raise _, w1) => reply_text env s w1
  end.
Proof.
  rewrite try_except_run, bind_run. by destruct (prompt w) as [[rt|e] w1].
Qed.

Lemma run_media env op m :
  media_prompt env op = Some m →
  ∃ u, sender op = Some (from_user_id u) ∧
       run env op =
       try_except (response_text ← m; handle_message env u (Some response_text))
         (λ _, reply_text env (media_apology op)).
Proof. destruct op; simpl; intros; simplify_eq; eauto. Qed.

Lemma step_ensures env op w uid :
  sender op = Some uid →
  ensures_record env op w = true →
  let l := ensure_user uid (users_collection w) in
  let l' := users_collection (step env op w) in
  l' = l ∨ ∃ t, l' = update_first uid (apply_update (inc_push t)) l.
Proof.
  intros Hs He. cbv zeta.
  assert (∀ u m, sender op = Some (from_user_id u) →
            run env op =
            try_except (response_text ← m; handle_message env u (Some response_text))
              (λ _, reply_text env (media_apology op)) →
            quiet m → match (m w).1 with Ok _ => true | Raise _ => false end = true →
            users_collection (step env op w) = ensure_user uid (users_collection w) ∨
            ∃ t, users_collection (step env op w) =
                 update_first uid (apply_update (inc_push t))
                   (ensure_user uid (users_collection w))) as Hmedia.
  { intros u m Hu Hrun Hq Hok. unfold step. rewrite Hrun, media_handler_run.
    destruct (Hq w) as [Hl _].
    destruct (m w) as [[rt|e] w1]; [|done]. world_simpl.
    pose proof (handle_message_users env u (Some rt) w1) as H. cbv zeta in H.
    rewrite Hl in H. assert (from_user_id u = uid) as Huid by congruence.
    rewrite Huid in H.
    destruct (handle_message env u (Some rt) w1) as [[[]|e] w2]; world_simpl;
      by rewrite ?reply_text_users. }
  destruct op as [u|u|u|u|u|u|r]; simpl in Hs, He; simplify_eq.
  - left. apply (step_effect env (OpStart u) w).
  - apply (handle_message_users env u None w).
  - eapply Hmedia; [done..|apply quiet_photo_prompt|done].
  - eapply Hmedia; [done..|apply quiet_voice_prompt|done].
  - eapply Hmedia; [done..|apply quiet_video_prompt|done].
Qed.

Lemma steps_find_first env ops w uid :
  is_Some (find_first uid (users_collection w)) →
  is_Some (find_first uid (users_collection (steps env ops w))).
Proof.
  revert w. induction ops as [|op ops IH]; intros w H; simpl; [done|].
  apply IH. eapply effect_find_first; [apply step_effect|done].
Qed.

(** ** Conversation history and record existence *)

(** C3, as the code has it.  Under every operation other than [/reset] each
    document keeps its place and its user id, and its [conversation_history]
    stays or gains exactly one entry at the end; a processed message appends
    the pair of the user's text and the reply; [/reset] replaces the history
    of the sender's record by the empty list. *)
Theorem history_append_only_except_reset env :
  (∀ op w,
     (∀ u, op ≠ OpReset u) →
     pointwise
       (λ d d', user_id d' = user_id d ∧
                conversation_history d `prefix_of` conversation_history d' ∧
                (conversation_history d' = conversation_history d ∨
                 ∃ t, conversation_history d' = conversation_history d ++ [t]))
       (users_collection w) (users_collection (step env op w)))
  ∧
  (∀ u rt w response,
     let uid := from_user_id u in
     let d := default (new_user uid) (find_first uid (users_collection w)) in
     gate_open d = true →
     groq env (clock w) (prompt_for d (message_of u rt)) = inr response →
     telegram_reply_text env (S (clock w)) response = None →
     ∃ d', find_first uid (users_collection (handle_message env u rt w).2) = Some d' ∧
           conversation_history d' =
           conversation_history d ++ [mkTurn (message_of u rt) response])
  ∧
  (∀ u w d,
     find_first (from_user_id u) (users_collection w) = Some d →
     ∃ d', find_first (from_user_id u)
             (users_collection (step env (OpReset u) w)) = Some d' ∧
           conversation_history d' = []).
Proof.
  split; [|split].
  - intros op w Hne. eapply effect_pointwise; [..|apply step_effect]; simpl.
    + intros d. split; [done|]. split; [done|]. by left.
    + intros u d ->. by destruct (Hne u).
    + intros d t _. split; [done|]. split; [by apply prefix_app_r|]. right. by eexists.
    + intros d b _. split; [done|]. split; [done|]. by left.
  - intros u rt w response uid d Hg Hgroq Hsend.
    destruct (handle_message_open env u rt w Hg) as (w0 & Hu0 & Hc0 & ->).
    rewrite generate_and_store_run. cbv zeta. rewrite Hc0.
    fold uid d. fold (prompt_for d (message_of u rt)). rewrite Hgroq, Hsend.
    world_simpl. rewrite Hu0.
    erewrite find_first_update_first;
      [|apply apply_update_user_id|apply find_first_ensure_user].
    eexists. split; [done|]. done.
  - intros u w d Hd. pose proof (step_effect env (OpReset u) w) as He.
    simpl in He. rewrite He.
    erewrite find_first_update_first; [|apply apply_update_user_id|exact Hd].
    eexists. split; [done|]. done.
Qed.

Lemma history_append_only_except_reset_witness :
  ∃ d', find_first 7
          (users_collection
             (handle_message calm (text_update 7 "hello") None
                (world_of [mkDoc 7 1 false [mkTurn (Some "hi") "Hi!"]])).2) = Some d' ∧
        conversation_history d' =
        [mkTurn (Some "hi") "Hi!"; mkTurn (Some "hello") "I hear you."].
Proof.
  destruct (history_append_only_except_reset calm) as (_ & H & _).
  apply (H (text_update 7 "hello") None
           (world_of [mkDoc 7 1 false [mkTurn (Some "hi") "Hi!"]]) "I hear you.");
    reflexivity.
Defined.

(** C3 as stated fails: [/reset] removes the entries of the history. *)
Lemma reset_prunes_history :
  ¬ pointwise
      (λ d d', conversation_history d `prefix_of` conversation_history d')
      (users_collection (world_of [mkDoc 7 1 false [mkTurn (Some "hi") "Hi!"]]))
      (users_collection
         (step calm (OpReset (text_update 7 "/reset"))
            (world_of [mkDoc 7 1 false [mkTurn (Some "hi") "Hi!"]]))).
Proof.
  intros H. destruct (H 0%nat _ eq_refl) as (d' & Hd' & Hp).
  vm_compute in Hd'. simplify_eq. simpl in Hp.
  by apply prefix_nil_not in Hp.
Qed.

(** C6, as the code has it.  After [/start], a text message, or a media
    message whose handler got as far as [handle_message], a record with the
    sender's id exists; if none existed before it is the fresh record
    (count 0, not subscribed, empty history), possibly already counting the
    one message just processed; and every later sequence of operations keeps
    a record with that id. *)
Theorem record_exists_after env op w uid :
  sender op = Some uid →
  ensures_record env op w = true →
  (∃ d, find_first uid (users_collection (step env op w)) = Some d ∧
        (find_first uid (users_collection w) = None →
         d = new_user uid ∨ ∃ t, d = apply_update (inc_push t) (new_user uid)))
  ∧
  (∀ ops, is_Some (find_first uid (users_collection (steps env ops (step env op w))))).
Proof.
  intros Hs He.
  assert (∃ d, find_first uid (users_collection (step env op w)) = Some d ∧
        (find_first uid (users_collection w) = None →
         d = new_user uid ∨ ∃ t, d = apply_update (inc_push t) (new_user uid))) as Hd.
  { destruct (step_ensures env op w uid Hs He) as [->|[t ->]].
    - rewrite find_first_ensure_user. eexists. split; [done|]. intros ->. by left.
    - erewrite find_first_update_first;
        [|apply apply_update_user_id|apply find_first_ensure_user].
      eexists. split; [done|]. intros ->. right. by exists t. }
  split; [done|]. intros ops. apply steps_find_first.
  destruct Hd as (d & -> & _). by eexists.
Qed.

Lemma record_exists_after_witness :
  ∃ d, find_first 7
         (users_collection (step calm (OpPhoto (photo_update 7)) (world_of []))) = Some d.
Proof.
  destruct (record_exists_after calm (OpPhoto (photo_update 7)) (world_of []) 7)
    as [(d & Hd & _) _]; [reflexivity | reflexivity | by exists d].
Defined.

(** C6 as stated fails: a photo whose download raises is answered with the
    apology and leaves no record of its sender. *)
Lemma failed_download_leaves_no_record :
  find_first 7
    (users_collection (step no_download (OpPhoto (photo_update 7)) (world_of []))) = None ∧
  trace (step no_download (OpPhoto (photo_update 7)) (world_of [])) =
    [Reply "Sorry, I couldn't process the image."].
Proof. by vm_compute. Qed.

(** ** The Stripe webhook *)

(** C2, as the code has it.  On a verified event: for
    [checkout.session.completed] with an integer [client_reference_id], and
    for [customer.subscription.updated] and [customer.subscription.deleted]
    with a non-empty integer [metadata.user_id], the handler issues exactly
    one update, of the single field [subscribed], on the first record with
    that user id, and answers 200; for [invoice.payment_succeeded] it issues
    no database operation at all, and answers 200. *)
Theorem stripe_webhook_updates env req w ev :
  stripe_Webhook_construct_event env (clock w) (payload req) (sig_header req)
    (STRIPE_WEBHOOK_SECRET env) = inr ev →
  let obj := data_object ev in
  let updated n b :=
    (Ok (EmptyBody, 200),
     mkWorld (update_first n (apply_update [SetSubscribed b]) (users_collection w))
             (trace w ++ [DbUpdate n [SetSubscribed b]]) (S (clock w))) in
  (event_type ev = "checkout.session.completed" →
   ∀ s n, client_reference_id obj = Some s → int_of_str env s = Some n →
          stripe_webhook env req w = updated n true)
  ∧
  (event_type ev = "customer.subscription.updated" →
   ∀ s n, metadata_user_id obj = Some s → s ≠ "" → int_of_str env s = Some n →
          stripe_webhook env req w = updated n (String.eqb (status obj) "active"))
  ∧
  (event_type ev = "customer.subscription.deleted" →
   ∀ s n, metadata_user_id obj = Some s → s ≠ "" → int_of_str env s = Some n →
          stripe_webhook env req w = updated n false)
  ∧
  (event_type ev = "invoice.payment_succeeded" →
   stripe_webhook env req w = (Ok (EmptyBody, 200), tick w)).
Proof.
  intros Hev obj updated. subst obj updated.
  assert (∀ s, s ≠ "" → truthy (Some s) = true) as Htruthy.
  { by intros [|? ?]. }
  rewrite (stripe_webhook_verified _ _ _ _ Hev). unfold dispatch_event.
  repeat split.
  - intros -> s n Hs Hn. cbn [String.eqb Ascii.eqb Bool.eqb].
    unfold handle_checkout_session.
    rewrite !bind_run, py_int_run, Hs, Hn. reflexivity.
  - intros -> s n Hs Hne Hn. cbn [String.eqb Ascii.eqb Bool.eqb].
    unfold handle_subscription_updated.
    rewrite Hs, (Htruthy s Hne), !bind_run, py_int_run, Hn. reflexivity.
  - intros -> s n Hs Hne Hn. cbn [String.eqb Ascii.eqb Bool.eqb].
    unfold handle_subscription_deleted.
    rewrite Hs, (Htruthy s Hne), !bind_run, py_int_run, Hn. reflexivity.
  - intros ->. reflexivity.
Qed.

Lemma stripe_webhook_updates_witness :
  stripe_webhook
    (with_event "checkout.session.completed" (mkStripeObject (Some "7") None "complete"))
    webhook_request (world_of [mkDoc 7 10 false []])
  = (Ok (EmptyBody, 200),
     mkWorld [mkDoc 7 10 true []] [DbUpdate 7 [SetSubscribed true]] 1).
Proof.
  pose proof (stripe_webhook_updates
                (with_event "checkout.session.completed"
                   (mkStripeObject (Some "7") None "complete"))
                webhook_request (world_of [mkDoc 7 10 false []]) _ eq_refl) as [H _].
  apply (H eq_refl "7" 7); reflexivity.
Defined.

(** C2 as stated fails: a verified [invoice.payment_succeeded] event is
    answered 200 without any database update. *)
Lemma invoice_payment_updates_nothing :
  stripe_webhook
    (with_event "invoice.payment_succeeded" (mkStripeObject (Some "7") (Some "7") "active"))
    webhook_request (world_of [mkDoc 7 10 false []])
  = (Ok (EmptyBody, 200), mkWorld [mkDoc 7 10 false []] [] 1).
Proof. reflexivity. Qed.

Lemma bind_Ok_inv {A B} (m : M A) (k : A → M B) w b w' :
  (m ≫= k) w = (Ok b, w') → ∃ a w1, m w = (Ok a, w1) ∧ k a w1 = (Ok b, w').
Proof.
  rewrite bind_run. destruct (m w) as [[a|e] w1]; [|done]. intros H. by exists a, w1.
Qed.

Lemma media_prompt_truthy env op m w rt w1 :
  media_prompt env op = Some m → m w = (Ok rt, w1) → truthy (Some rt) = true.
Proof.
  intros Hm H.
  destruct op as [u|u|u|u|u|u|r]; simpl in Hm; simplify_eq.
  - unfold photo_prompt in H.
    repeat (apply bind_Ok_inv in H as (? & ? & _ & H)).
    unfold mret, M_ret in H. by simplify_eq.
  - unfold voice_prompt in H.
    repeat (apply bind_Ok_inv in H as (? & ? & _ & H)).
    case_match. unfold mret, M_ret in H.
    repeat (apply bind_Ok_inv in H as (? & ? & _ & H)).
    unfold mret, M_ret in H. by simplify_eq.
  - unfold video_prompt in H.
    repeat (apply bind_Ok_inv in H as (? & ? & _ & H)).
    unfold mret, M_ret in H. by simplify_eq.
Qed.




(** ** Exceptions *)

Lemma try_except_fallback {A} (m : M A) (x : A) w :
  (∃ v, (try_except m (λ _, mret x) w).1 = Ok v) ∧
  (∀ e, (m w).1 = Raise e → (try_except m (λ _, mret x) w).1 = Ok x) ∧
  (∀ v, (m w).1 = Ok v → (try_except m (λ _, mret x) w).1 = Ok v).
Proof.
  rewrite try_except_run. destruct (m w) as [[v|e] w1]; simpl;
    repeat split; eauto; intros; simplify_eq; done.
Qed.






(** ** utils.py *)

Lemma video_frames_no_faces env frames emotions w :
  (∀ t image, ∃ gray, cv2_cvtColor env t image = inr gray) →
  (∀ t image, detectMultiScale env t image = inr []) →
  ∃ w', video_frames env frames emotions w = (Ok emotions, w').
Proof.
  intros Hgray Hfaces. revert w.
  induction frames as [|frame rest IH]; intros w; simpl; [by eexists|].
  rewrite bind_run. unfold extern at 1.
  destruct (Hgray (clock w) frame) as [gray ->].
  rewrite bind_run. unfold extern at 1. rewrite Hfaces. world_simpl.
  rewrite bind_run. simpl. rewrite app_nil_r. apply IH.
Qed.

(** C10. The analysis functions are total at their interface: each returns a
    value on every path and world; whenever its [try] block raises, the value
    is the fallback ([["error"]] for [analyze_image] and [analyze_video],
    [("error", [neutral])] for [analyze_audio]); otherwise it is the block's
    value.  [analyze_video] returns [["neutral"]] when the frames yield no
    emotion, in particular when no face is found in any frame. *)
Theorem analysis_functions_total env path w :
  ((∃ v, (analyze_image env path w).1 = Ok v) ∧
   (∀ e, (analyze_image_try env path w).1 = Raise e →
         (analyze_image env path w).1 = Ok ["error"]) ∧
   (∀ v, (analyze_image_try env path w).1 = Ok v →
         (analyze_image env path w).1 = Ok v))
  ∧
  ((∃ v, (analyze_audio env path w).1 = Ok v) ∧
   (∀ e, (analyze_audio_try env path w).1 = Raise e →
         (analyze_audio env path w).1 = Ok ("error", ["neutral"])) ∧
   (∀ v, (analyze_audio_try env path w).1 = Ok v →
         (analyze_audio env path w).1 = Ok v))
  ∧
  ((∃ v, (analyze_video env path w).1 = Ok v) ∧
   (∀ e, (analyze_video_try env path w).1 = Raise e →
         (analyze_video env path w).1 = Ok ["error"]) ∧
   (∀ v, (analyze_video_try env path w).1 = Ok v →
         (analyze_video env path w).1 = Ok v))
  ∧
  (∀ opened frames w2,
     cv2_VideoCapture env (clock w) path = inr (opened, frames) →
     (if opened : bool then video_frames env frames [] else mret []) (tick w) = (Ok [], w2) →
     cap_release env (clock w2) = None →
     analyze_video env path w = (Ok ["neutral"], tick w2))
  ∧
  (∀ opened frames,
     cv2_VideoCapture env (clock w) path = inr (opened, frames) →
     (∀ t image, ∃ gray, cv2_cvtColor env t image = inr gray) →
     (∀ t image, detectMultiScale env t image = inr []) →
     (∀ t, cap_release env t = None) →
     (analyze_video env path w).1 = Ok ["neutral"]).
Proof.
  assert (∀ opened frames w2,
     cv2_VideoCapture env (clock w) path = inr (opened, frames) →
     (if opened : bool then video_frames env frames [] else mret []) (tick w) = (Ok [], w2) →
     cap_release env (clock w2) = None →
     analyze_video env path w = (Ok ["neutral"], tick w2)) as Hneutral.
  { intros opened frames w2 Hcap Hframes Hrel.
    unfold analyze_video, analyze_video_try.
    rewrite try_except_run, bind_run. unfold extern at 1. rewrite Hcap.
    rewrite bind_run, Hframes, bind_run. unfold extern_ at 1. by rewrite Hrel. }
  split; [apply try_except_fallback|].
  split; [apply try_except_fallback|].
  split; [apply try_except_fallback|].
  split; [exact Hneutral|].
  intros opened frames Hcap Hgray Hfaces Hrel.
  assert (∃ w2, (if opened then video_frames env frames [] else mret []) (tick w)
                = (Ok [], w2)) as [w2 Hw2].
  { destruct opened; [|by eexists]. by apply video_frames_no_faces. }
  by rewrite (Hneutral opened frames w2 Hcap Hw2 (Hrel _)).
Qed.

Lemma analysis_functions_total_witness :
  (analyze_image bad_image "downloads/photo.jpg" (world_of [])).1 = Ok ["error"].
Proof.
  destruct (analysis_functions_total bad_image "downloads/photo.jpg" (world_of []))
    as ((_ & H & _) & _).
  apply (H ValueError). reflexivity.
Defined.

(** ** More on the Stripe webhook *)

Lemma stripe_webhook_rejected env req w e :
  stripe_Webhook_construct_event env (clock w) (payload req) (sig_header req)
    (STRIPE_WEBHOOK_SECRET env) = inl e →
  stripe_webhook env req w =
  (match e with
   | ValueError => Ok (JsonError "Invalid payload", 400)
   | SignatureVerificationError => Ok (JsonError "Invalid signature", 400)
   | _ => Raise e
   end, tick w).
Proof.
  intros He. unfold stripe_webhook.
  rewrite bind_run, try_except_run, bind_run.
  unfold extern at 1. rewrite He. by destruct e.
Qed.

(** X1. A payload that [construct_event] does not accept never reaches the
    database: an invalid payload and an invalid signature are answered 400
    with their own error body, any other exception of the check propagates,
    and in every case the collection and the trace are as before. *)
Theorem unverified_payload_is_rejected env req w e :
  stripe_Webhook_construct_event env (clock w) (payload req) (sig_header req)
    (STRIPE_WEBHOOK_SECRET env) = inl e →
  let r := stripe_webhook env req w in
  users_collection r.2 = users_collection w ∧
  trace r.2 = trace w ∧
  r.1 = match e with
        | ValueError => Ok (JsonError "Invalid payload", 400)
        | SignatureVerificationError => Ok (JsonError "Invalid signature", 400)
        | _ => Raise e
        end.
Proof. intros He. cbv zeta. by rewrite (stripe_webhook_rejected _ _ _ _ He). Qed.

Lemma unverified_payload_is_rejected_witness :
  (stripe_webhook
     (sample_env (inr "I hear you.") (inr []) (inr None)
        (inl SignatureVerificationError) (λ _, None))
     webhook_request (world_of [mkDoc 7 10 false []])).1
  = Ok (JsonError "Invalid signature", 400).
Proof.
  apply (unverified_payload_is_rejected
           (sample_env (inr "I hear you.") (inr []) (inr None)
              (inl SignatureVerificationError) (λ _, None))
           webhook_request (world_of [mkDoc 7 10 false []])
           SignatureVerificationError eq_refl).
Defined.

Lemma truthy_false_cases v : truthy v = false → v = None ∨ v = Some "".
Proof. destruct v as [[|? ?]|]; simpl; intros; simplify_eq; auto. Qed.

(** X2. A verified event the handlers have nothing to do for is acknowledged
    and ignored: an event of a type outside the four dispatched ones, and a
    [customer.subscription.updated] or [customer.subscription.deleted] event
    whose [metadata.user_id] is missing or empty, are answered 200 with no
    database operation. *)
Theorem ignored_events_are_acknowledged env req w ev :
  stripe_Webhook_construct_event env (clock w) (payload req) (sig_header req)
    (STRIPE_WEBHOOK_SECRET env) = inr ev →
  (event_type ev ≠ "checkout.session.completed" ∧
   event_type ev ≠ "invoice.payment_succeeded" ∧
   event_type ev ≠ "customer.subscription.updated" ∧
   event_type ev ≠ "customer.subscription.deleted")
  ∨
  ((event_type ev = "customer.subscription.updated" ∨
    event_type ev = "customer.subscription.deleted") ∧
   (metadata_user_id (data_object ev) = None ∨
    metadata_user_id (data_object ev) = Some "")) →
  stripe_webhook env req w = (Ok (EmptyBody, 200), tick w).
Proof.
  intros Hev Hcase. rewrite (stripe_webhook_verified _ _ _ _ Hev).
  unfold dispatch_event.
  destruct Hcase as [(H1 & H2 & H3 & H4)|[Hty Hid]].
  - apply String.eqb_neq in H1, H2, H3, H4. by rewrite H1, H2, H3, H4.
  - assert (truthy (metadata_user_id (data_object ev)) = false) as Ht.
    { by destruct Hid as [->| ->]. }
    unfold handle_subscription_updated, handle_subscription_deleted.
    destruct Hty as [-> | ->]; cbn [String.eqb Ascii.eqb Bool.eqb];
      by rewrite Ht.
Qed.

Lemma ignored_events_are_acknowledged_witness :
  stripe_webhook
    (with_event "customer.subscription.deleted" (mkStripeObject None None "canceled"))
    webhook_request (world_of [mkDoc 7 10 true []])
  = (Ok (EmptyBody, 200), mkWorld [mkDoc 7 10 true []] [] 1).
Proof.
  apply (ignored_events_are_acknowledged
           (with_event "customer.subscription.deleted"
              (mkStripeObject None None "canceled"))
           webhook_request (world_of [mkDoc 7 10 true []]) _ eq_refl).
  right. split; [by right | by left].
Defined.

(** X3. A user id that is not an integer is not caught by the webhook:
    [checkout.session.completed] without [client_reference_id] raises
    [TypeError], and a reference or a non-empty [metadata.user_id] that
    [int] rejects raises [ValueError]; the exception leaves [stripe_webhook]
    (it is raised after the [try] block), and no database operation is
    issued. *)
Theorem malformed_user_id_escapes env req w ev :
  stripe_Webhook_construct_event env (clock w) (payload req) (sig_header req)
    (STRIPE_WEBHOOK_SECRET env) = inr ev →
  let obj := data_object ev in
  (event_type ev = "checkout.session.completed" →
   client_reference_id obj = None →
   stripe_webhook env req w = (Raise TypeError, tick w))
  ∧
  (event_type ev = "checkout.session.completed" →
   ∀ s, client_reference_id obj = Some s → int_of_str env s = None →
        stripe_webhook env req w = (Raise ValueError, tick w))
  ∧
  (event_type ev = "customer.subscription.updated" ∨
   event_type ev = "customer.subscription.deleted" →
   ∀ s, metadata_user_id obj = Some s → s ≠ "" → int_of_str env s = None →
        stripe_webhook env req w = (Raise ValueError, tick w)).
Proof.
  intros Hev obj. subst obj. rewrite (stripe_webhook_verified _ _ _ _ Hev).
  unfold dispatch_event. repeat split.
  - intros -> Hs. cbn [String.eqb Ascii.eqb Bool.eqb].
    unfold handle_checkout_session. by rewrite !bind_run, py_int_run, Hs.
  - intros -> s Hs Hn. cbn [String.eqb Ascii.eqb Bool.eqb].
    unfold handle_checkout_session. by rewrite !bind_run, py_int_run, Hs, Hn.
  - intros Hty s Hs Hne Hn.
    assert (truthy (Some s) = true) as Ht by by destruct s.
    unfold handle_subscription_updated, handle_subscription_deleted.
    destruct Hty as [-> | ->]; cbn [String.eqb Ascii.eqb Bool.eqb];
      by rewrite Hs, Ht, !bind_run, py_int_run, Hn.
Qed.

Lemma malformed_user_id_escapes_witness :
  stripe_webhook
    (with_event "checkout.session.completed" (mkStripeObject None None "complete"))
    webhook_request (world_of [mkDoc 7 10 false []])
  = (Raise TypeError, mkWorld [mkDoc 7 10 false []] [] 1).
Proof.
  destruct (malformed_user_id_escapes
              (with_event "checkout.session.completed"
                 (mkStripeObject None None "complete"))
              webhook_request (world_of [mkDoc 7 10 false []]) _ eq_refl) as [H _].
  apply H; reflexivity.
Defined.

(** X4. The webhook writes nothing but the [subscribed] flag: whatever the
    request, every document keeps its place, its [user_id], its
    [message_count] and its [conversation_history], and no document is added
    or removed. *)
Theorem webhook_writes_only_subscribed env req w :
  let l := users_collection w in
  let l' := users_collection (stripe_webhook env req w).2 in
  length l' = length l ∧
  pointwise
    (λ d d', user_id d' = user_id d ∧
             message_count d' = message_count d ∧
             conversation_history d' = conversation_history d)
    l l'.
Proof.
  cbv zeta. pose proof (stripe_webhook_users env req w) as He. split.
  - destruct He as [->|(n & b & ->)]; [done|apply length_update_first].
  - eapply (effect_pointwise _ (OpWebhook req)); [..|exact He]; by simpl.
Qed.

(** X5. [update_one] is issued without upsert: a verified
    [checkout.session.completed] for a user id that has no record is answered
    200, the update is issued, and the collection is left exactly as it was
    (no record is created for the payer). *)
Theorem checkout_for_unknown_user_changes_nothing env req w ev s n :
  stripe_Webhook_construct_event env (clock w) (payload req) (sig_header req)
    (STRIPE_WEBHOOK_SECRET env) = inr ev →
  event_type ev = "checkout.session.completed" →
  client_reference_id (data_object ev) = Some s →
  int_of_str env s = Some n →
  find_first n (users_collection w) = None →
  stripe_webhook env req w =
  (Ok (EmptyBody, 200),
   mkWorld (users_collection w) (trace w ++ [DbUpdate n [SetSubscribed true]])
     (S (clock w))).
Proof.
  intros Hev Hty Hs Hn Hnone. rewrite (stripe_webhook_verified _ _ _ _ Hev).
  unfold dispatch_event. rewrite Hty. cbn [String.eqb Ascii.eqb Bool.eqb].
  unfold handle_checkout_session. rewrite !bind_run, py_int_run, Hs, Hn.
  unfold update_one, tick. world_simpl. by rewrite update_first_missing.
Qed.

Lemma checkout_for_unknown_user_changes_nothing_witness :
  stripe_webhook
    (with_event "checkout.session.completed" (mkStripeObject (Some "8") None "complete"))
    webhook_request (world_of [mkDoc 7 10 false []])
  = (Ok (EmptyBody, 200),
     mkWorld [mkDoc 7 10 false []] [DbUpdate 8 [SetSubscribed true]] 1).
Proof.
  apply (checkout_for_unknown_user_changes_nothing
           (with_event "checkout.session.completed"
              (mkStripeObject (Some "8") None "complete"))
           webhook_request (world_of [mkDoc 7 10 false []])
           (mkStripeEvent "checkout.session.completed"
              (mkStripeObject (Some "8") None "complete")) "8" 8);
    reflexivity.
Defined.

(** ** Traces and identities *)

Lemma reply_text_trace env s w :
  trace (reply_text env s w).2 =
  trace w ++ match telegram_reply_text env (clock w) s with
             | None => [Reply s]
             | Some _ => []
             end.
Proof.
  rewrite reply_text_run. destruct (telegram_reply_text env (clock w) s); simpl.
  - by rewrite app_nil_r.
  - done.
Qed.

Lemma handle_message_first_event env u rt w d :
  find_first (from_user_id u) (users_collection w) = Some d →
  ∃ tail,
    trace (handle_message env u rt w).2 =
    trace w ++
      (if gate_open d then GroqRequest (prompt_for d (message_of u rt))
       else CheckoutSessionCreate (pretty (from_user_id u))) :: tail.
Proof.
  intros Hd. rewrite (handle_message_found _ _ _ _ d Hd).
  destruct (gate_open d).
  - rewrite generate_and_store_run. cbv zeta. fold (prompt_for d (message_of u rt)).
    destruct (groq env _ _) as [e|response].
    + rewrite reply_text_trace. unfold logged, tick. world_simpl.
      rewrite <- app_assoc. by eexists.
    + destruct (telegram_reply_text env (S (clock w)) response).
      * rewrite reply_text_trace. unfold logged, tick. world_simpl.
        rewrite <- app_assoc. by eexists.
      * world_simpl. by eexists.
  - rewrite paywall_run. cbv zeta.
    destruct (stripe_checkout_Session_create env _ _) as [e|url].
    + unfold logged, tick. world_simpl. by eexists.
    + rewrite reply_text_trace. unfold logged, tick. world_simpl.
      rewrite <- app_assoc. by eexists.
Qed.

Lemma find_first_ensure_user_ne uid uid' l :
  uid' ≠ uid → find_first uid' (ensure_user uid l) = find_first uid' l.
Proof.
  intros Hne. unfold ensure_user. destruct (find_first uid l); [done|].
  destruct (find_first uid' l) as [d|] eqn:E.
  - by apply find_first_app_l.
  - rewrite find_first_app_None by done. simpl.
    by destruct (Z.eqb_spec uid uid'); [congruence|].
Qed.

Lemma find_first_None_user_ids uid l :
  find_first uid l = None ↔ uid ∉ user_id <$> l.
Proof.
  induction l as [|x l IH]; simpl.
  - split; [intros _ ?%elem_of_nil; done | done].
  - rewrite not_elem_of_cons, <- IH.
    destruct (Z.eqb_spec (user_id x) uid); split; try done.
    + by intros [? _].
    + intros [_ ?]. done.
Qed.

Lemma user_ids_update_first uid f l :
  (∀ x, user_id (f x) = user_id x) →
  user_id <$> update_first uid f l = user_id <$> l.
Proof.
  intros Hf. induction l as [|x l IH]; [done|]. cbn [update_first].
  destruct (user_id x =? uid); rewrite !fmap_cons; by rewrite ?Hf, ?IH.
Qed.

Lemma ensure_user_idemp uid l :
  ensure_user uid (ensure_user uid l) = ensure_user uid l.
Proof.
  unfold ensure_user at 1. by rewrite find_first_ensure_user.
Qed.

Lemma checkout_completed_run env req w o s n :
  stripe_Webhook_construct_event env (clock w) (payload req) (sig_header req)
    (STRIPE_WEBHOOK_SECRET env) = inr (mkStripeEvent "checkout.session.completed" o) →
  client_reference_id o = Some s →
  int_of_str env s = Some n →
  stripe_webhook env req w =
  (Ok (EmptyBody, 200),
   mkWorld (update_first n (apply_update [SetSubscribed true]) (users_collection w))
     (trace w ++ [DbUpdate n [SetSubscribed true]]) (S (clock w))).
Proof.
  intros Hev Hs Hn. rewrite (stripe_webhook_verified _ _ _ _ Hev).
  unfold dispatch_event. cbn [event_type data_object String.eqb Ascii.eqb Bool.eqb].
  unfold handle_checkout_session. by rewrite !bind_run, py_int_run, Hs, Hn.
Qed.

Lemma subscription_deleted_run env req w o s n :
  stripe_Webhook_construct_event env (clock w) (payload req) (sig_header req)
    (STRIPE_WEBHOOK_SECRET env) = inr (mkStripeEvent "customer.subscription.deleted" o) →
  metadata_user_id o = Some s → s ≠ "" →
  int_of_str env s = Some n →
  stripe_webhook env req w =
  (Ok (EmptyBody, 200),
   mkWorld (update_first n (apply_update [SetSubscribed false]) (users_collection w))
     (trace w ++ [DbUpdate n [SetSubscribed false]]) (S (clock w))).
Proof.
  intros Hev Hs Hne Hn. rewrite (stripe_webhook_verified _ _ _ _ Hev).
  unfold dispatch_event. cbn [event_type data_object String.eqb Ascii.eqb Bool.eqb].
  assert (truthy (Some s) = true) as Ht by by destruct s.
  unfold handle_subscription_deleted.
  by rewrite Hs, Ht, !bind_run, py_int_run, Hn.
Qed.

(** ** The subscription life cycle *)

(** X6. The paywall and the webhook fit together.  A paywalled user's message
    creates a checkout session whose [client_reference_id] is [str(user_id)];
    when Stripe reports that session completed and [int] reads the reference
    back as the user id, the webhook sets [subscribed] on exactly that user's
    record, with count and history untouched, and the user's next message
    goes to the language model instead of the paywall. *)
Theorem checkout_round_trip env u rt req w d o :
  let uid := from_user_id u in
  find_first uid (users_collection w) = Some d →
  subscribed d = false →
  10 ≤ message_count d →
  int_of_str env (pretty uid) = Some uid →
  let w1 := (handle_message env u rt w).2 in
  stripe_Webhook_construct_event env (clock w1) (payload req) (sig_header req)
    (STRIPE_WEBHOOK_SECRET env) = inr (mkStripeEvent "checkout.session.completed" o) →
  client_reference_id o = Some (pretty uid) →
  let w2 := (stripe_webhook env req w1).2 in
  CheckoutSessionCreate (pretty uid) ∈ trace w1 ∧
  find_first uid (users_collection w2) =
    Some (mkDoc uid (message_count d) true (conversation_history d)) ∧
  ∀ u' rt', from_user_id u' = uid →
    ∃ tail,
      trace (handle_message env u' rt' w2).2 =
      trace w2 ++ GroqRequest (prompt_for d (message_of u' rt')) :: tail.
Proof.
  intros uid Hd Hs Hc Hint w1 Hev Href w2.
  assert (gate_open d = false) as Hg.
  { unfold gate_open. rewrite Hs. simpl. lia. }
  assert (users_collection w1 = users_collection w) as Hu1.
  { subst w1. rewrite (handle_message_found _ _ _ _ d Hd), Hg. apply paywall_users. }
  split.
  { destruct (handle_message_first_event env u rt w d Hd) as [tail Ht].
    subst w1. rewrite Ht, Hg. apply elem_of_app. right. apply elem_of_cons. by left. }
  assert (find_first uid (users_collection w2) =
          Some (mkDoc uid (message_count d) true (conversation_history d))) as Hd2.
  { subst w2. rewrite (checkout_completed_run _ _ _ _ _ _ Hev Href Hint).
    world_simpl. rewrite Hu1.
    rewrite (find_first_update_first _ _ _ d); [|apply apply_update_user_id|done].
    simpl. by rewrite (find_first_user_id _ _ _ Hd). }
  split; [done|]. intros u' rt' Hu'.
  rewrite <- Hu' in Hd2.
  destruct (handle_message_first_event env u' rt' w2 _ Hd2) as [tail Ht].
  exists tail. by rewrite Ht.
Qed.

Lemma checkout_round_trip_witness :
  find_first 7
    (users_collection
       (stripe_webhook
          (with_event "checkout.session.completed" (mkStripeObject (Some "7") None "complete"))
          webhook_request
          (handle_message
             (with_event "checkout.session.completed"
                (mkStripeObject (Some "7") None "complete"))
             (text_update 7 "hello") None (world_of [mkDoc 7 10 false []])).2).2)
  = Some (mkDoc 7 10 true []).
Proof.
  pose proof (checkout_round_trip
                (with_event "checkout.session.completed"
                   (mkStripeObject (Some "7") None "complete"))
                (text_update 7 "hello") None webhook_request
                (world_of [mkDoc 7 10 false []]) (mkDoc 7 10 false [])
                (mkStripeObject (Some "7") None "complete")) as H.
  cbv zeta in H.
  destruct H as (_ & H & _);
    [reflexivity | reflexivity | simpl; lia | reflexivity | reflexivity | reflexivity
    | exact H].
Defined.

(** X7. Cancelling does not refund the quota.  A verified
    [customer.subscription.deleted] naming the user in [metadata.user_id]
    clears [subscribed] and keeps [message_count], so the user's next message
    is answered by the language model only while the count is below 10, and
    by the paywall otherwise. *)
Theorem cancellation_restores_the_quota env req w d o s uid :
  find_first uid (users_collection w) = Some d →
  stripe_Webhook_construct_event env (clock w) (payload req) (sig_header req)
    (STRIPE_WEBHOOK_SECRET env) = inr (mkStripeEvent "customer.subscription.deleted" o) →
  metadata_user_id o = Some s → s ≠ "" →
  int_of_str env s = Some uid →
  let w1 := (stripe_webhook env req w).2 in
  find_first uid (users_collection w1) =
    Some (mkDoc uid (message_count d) false (conversation_history d)) ∧
  ∀ u rt, from_user_id u = uid →
    ∃ tail,
      trace (handle_message env u rt w1).2 =
      trace w1 ++
        (if message_count d <? 10
         then GroqRequest (prompt_for d (message_of u rt))
         else CheckoutSessionCreate (pretty uid)) :: tail.
Proof.
  intros Hd Hev Hs Hne Hint w1.
  assert (find_first uid (users_collection w1) =
          Some (mkDoc uid (message_count d) false (conversation_history d))) as Hd1.
  { subst w1. rewrite (subscription_deleted_run _ _ _ _ _ _ Hev Hs Hne Hint).
    world_simpl.
    rewrite (find_first_update_first _ _ _ d); [|apply apply_update_user_id|done].
    simpl. by rewrite (find_first_user_id _ _ _ Hd). }
  split; [done|]. intros u rt Hu. rewrite <- Hu in Hd1.
  destruct (handle_message_first_event env u rt w1 _ Hd1) as [tail Ht].
  exists tail. rewrite Ht, Hu. unfold gate_open. simpl.
  by destruct (message_count d <? 10).
Qed.

Lemma cancellation_restores_the_quota_witness :
  find_first 7
    (users_collection
       (stripe_webhook
          (with_event "customer.subscription.deleted"
             (mkStripeObject None (Some "7") "canceled"))
          webhook_request (world_of [mkDoc 7 42 true []])).2)
  = Some (mkDoc 7 42 false []).
Proof.
  pose proof (cancellation_restores_the_quota
                (with_event "customer.subscription.deleted"
                   (mkStripeObject None (Some "7") "canceled"))
                webhook_request (world_of [mkDoc 7 42 true []]) (mkDoc 7 42 true [])
                (mkStripeObject None (Some "7") "canceled") "7" 7) as H.
  cbv zeta in H.
  destruct H as [H _]; [reflexivity | reflexivity | reflexivity | done | reflexivity | exact H].
Defined.

(** ** Users and their records *)

(** X8. Users are isolated from one another: a Telegram update from one
    sender, whatever the handler and whatever fails, leaves the record found
    for every other user id exactly as it was. *)
Theorem other_users_are_untouched env op w uid uid' :
  sender op = Some uid →
  uid' ≠ uid →
  find_first uid' (users_collection (step env op w)) =
  find_first uid' (users_collection w).
Proof.
  intros Hs Hne. pose proof (step_effect env op w) as He.
  assert (∀ upd, find_first uid'
                   (update_first uid (apply_update upd)
                      (ensure_user uid (users_collection w))) =
                 find_first uid' (users_collection w)) as Hupd.
  { intros upd.
    rewrite find_first_update_first_ne by (apply apply_update_user_id || done).
    by apply find_first_ensure_user_ne. }
  destruct op as [u|u|u|u|u|u|r]; simpl in Hs, He; simplify_eq;
    repeat match goal with
      | H : _ ∨ _ |- _ => destruct H as [H|H]
      | H : ∃ _, _ |- _ => destruct H as [? H]
      end;
    rewrite He;
    first [ done
          | by apply find_first_ensure_user_ne
          | apply Hupd
          | by apply find_first_update_first_ne; [apply apply_update_user_id|] ].
Qed.

Lemma other_users_are_untouched_witness :
  find_first 8
    (users_collection
       (step calm (OpReset (text_update 7 "/reset"))
          (world_of [mkDoc 7 3 false [mkTurn (Some "a") "b"];
                     mkDoc 8 5 true [mkTurn (Some "c") "d"]])))
  = Some (mkDoc 8 5 true [mkTurn (Some "c") "d"]).
Proof.
  rewrite (other_users_are_untouched calm (OpReset (text_update 7 "/reset")) _ 7 8);
    [reflexivity | reflexivity | done].
Defined.

(** X9. One record per user: if no two documents of the collection carry the
    same [user_id], no operation makes two of them do so (the handlers insert
    only after [find_one] found nothing, and updates keep the id). *)
Theorem user_ids_stay_distinct env op w :
  NoDup (user_id <$> users_collection w) →
  NoDup (user_id <$> users_collection (step env op w)).
Proof.
  intros Hnd. pose proof (step_effect env op w) as He.
  assert (∀ uid, NoDup (user_id <$> ensure_user uid (users_collection w))) as Hens.
  { intros uid. unfold ensure_user.
    destruct (find_first uid (users_collection w)) eqn:E; [done|].
    rewrite fmap_app. apply NoDup_app. split; [done|]. split; [|apply NoDup_singleton].
    intros x Hx Hin. apply list_elem_of_singleton in Hin. simpl in Hin. subst x.
    by apply find_first_None_user_ids in E. }
  destruct op as [u|u|u|u|u|u|r]; simpl in He;
    repeat match goal with
      | H : _ ∨ _ |- _ => destruct H as [H|H]
      | H : ∃ _, _ |- _ => destruct H as [? H]
      end;
    rewrite He, ?user_ids_update_first by apply apply_update_user_id;
    auto.
Qed.

Lemma user_ids_stay_distinct_witness :
  NoDup (user_id <$> users_collection
           (step calm (OpStart (text_update 7 "/start"))
              (world_of [mkDoc 7 3 false []; mkDoc 8 0 false []]))).
Proof.
  apply (user_ids_stay_distinct calm (OpStart (text_update 7 "/start"))
           (world_of [mkDoc 7 3 false []; mkDoc 8 0 false []])).
  simpl. apply NoDup_cons. split.
  - intros H. apply list_elem_of_singleton in H. discriminate.
  - apply NoDup_singleton.
Defined.

Lemma update_first_new_user uid upd l :
  find_first uid l = None →
  update_first uid (apply_update upd) (ensure_user uid l) =
  l ++ [apply_update upd (new_user uid)].
Proof.
  intros E. unfold ensure_user. rewrite E.
  induction l as [|x l IH]; simpl in *.
  - by rewrite Z.eqb_refl.
  - destruct (user_id x =? uid); [discriminate E|]. by rewrite IH.
Qed.

(** X10. The collection only grows, one document at a time: an operation
    leaves its length unchanged or adds exactly one document, and it adds one
    only when it is [/start] or a message whose sender had no record (never
    [/reset], never the webhook); the added document carries the sender's
    id. *)
Theorem collection_grows_by_new_senders env op w :
  let l := users_collection w in
  let l' := users_collection (step env op w) in
  length l' = length l ∨
  ∃ uid d,
    sender op = Some uid ∧
    (∀ u, op ≠ OpReset u) ∧
    find_first uid l = None ∧
    user_id d = uid ∧
    l' = l ++ [d].
Proof.
  cbv zeta. pose proof (step_effect env op w) as He.
  assert (∀ uid l',
            sender op = Some uid → (∀ u, op ≠ OpReset u) →
            l' = users_collection w ∨ l' = ensure_user uid (users_collection w) ∨
            (∃ t, l' = update_first uid (apply_update (inc_push t))
                         (ensure_user uid (users_collection w))) →
            length l' = length (users_collection w) ∨
            ∃ uid d, sender op = Some uid ∧ (∀ u, op ≠ OpReset u) ∧
                     find_first uid (users_collection w) = None ∧
                     user_id d = uid ∧ l' = users_collection w ++ [d]) as Hshape.
  { intros uid l' Hs Hnr Hl'.
    destruct (find_first uid (users_collection w)) as [d|] eqn:E.
    - left. unfold ensure_user in Hl'. rewrite E in Hl'.
      destruct Hl' as [->|[->|[t ->]]]; by rewrite ?length_update_first.
    - destruct Hl' as [->|[->|[t ->]]]; [by left|right..].
      + exists uid, (new_user uid). unfold ensure_user. by rewrite E.
      + exists uid, (apply_update (inc_push t) (new_user uid)).
        rewrite update_first_new_user by done.
        by rewrite apply_update_user_id. }
  destruct op as [u|u|u|u|u|u|r]; simpl in He.
  - apply (Hshape (from_user_id u)); [done|done|auto].
  - left. rewrite He. apply length_update_first.
  - apply (Hshape (from_user_id u)); [done|done|auto].
  - apply (Hshape (from_user_id u)); [done|done|auto].
  - apply (Hshape (from_user_id u)); [done|done|auto].
  - apply (Hshape (from_user_id u)); [done|done|auto].
  - left. destruct He as [->|(n & b & ->)]; [done|apply length_update_first].
Qed.

(** X11. [/start] registers a user once: a second [/start] (from the same
    user, whenever it comes and whether or not the welcome message can be
    sent) leaves the collection as the first one left it, and [/start] from a
    user who has a record changes nothing in the collection. *)
Theorem start_registers_once env u u' w :
  from_user_id u' = from_user_id u →
  let w1 := step env (OpStart u) w in
  users_collection (step env (OpStart u') w1) = users_collection w1 ∧
  (is_Some (find_first (from_user_id u) (users_collection w)) →
   users_collection w1 = users_collection w).
Proof.
  intros Hu w1. subst w1.
  pose proof (step_effect env (OpStart u) w) as H1.
  pose proof (step_effect env (OpStart u') (step env (OpStart u) w)) as H2.
  simpl in H1, H2. rewrite H2, H1, Hu. split.
  - apply ensure_user_idemp.
  - intros [d Hd]. unfold ensure_user. by rewrite Hd.
Qed.

Lemma start_registers_once_witness :
  users_collection
    (step calm (OpStart (text_update 7 "/start"))
       (step calm (OpStart (text_update 7 "/start")) (world_of [])))
  = [new_user 7].
Proof.
  destruct (start_registers_once calm (text_update 7 "/start") (text_update 7 "/start")
              (world_of []) eq_refl) as [H _].
  rewrite H. reflexivity.
Defined.

(** X12. [/reset] from a user without a record creates none: the update is
    issued and matches nothing, the collection is unchanged, and the user is
    still told that the history has been reset. *)
Theorem reset_without_record env u w :
  find_first (from_user_id u) (users_collection w) = None →
  reset env u w =
  reply_text env "Your conversation history has been reset."
    (mkWorld (users_collection w)
       (trace w ++ [DbUpdate (from_user_id u) [SetConversationHistory []]])
       (clock w)).
Proof.
  intros Hnone. unfold reset. rewrite bind_run. unfold update_one at 1.
  by rewrite update_first_missing.
Qed.

Lemma reset_without_record_witness :
  reset calm (text_update 7 "/reset") (world_of [mkDoc 8 1 false []]) =
  (Ok tt,
   mkWorld [mkDoc 8 1 false []]
     [DbUpdate 7 [SetConversationHistory []];
      Reply "Your conversation history has been reset."] 1).
Proof.
  rewrite (reset_without_record calm (text_update 7 "/reset")
             (world_of [mkDoc 8 1 false []]) eq_refl).
  reflexivity.
Defined.

(** X13. [/reset] forgets the conversation but not the quota: the next
    message of a user who may still talk is sent to the language model with a
    prompt that holds nothing but that message, and the next message of an
    unsubscribed user at 10 or more messages is still answered by the
    paywall. *)
Theorem reset_then_message env u u' rt w d :
  find_first (from_user_id u) (users_collection w) = Some d →
  from_user_id u' = from_user_id u →
  let w1 := step env (OpReset u) w in
  ∃ tail,
    trace (handle_message env u' rt w1).2 =
    trace w1 ++
      (if subscribed d || (message_count d <? 10)
       then GroqRequest (nl +:+ "User: " +:+ fmt (message_of u' rt))
       else CheckoutSessionCreate (pretty (from_user_id u))) :: tail.
Proof.
  intros Hd Hu w1.
  assert (find_first (from_user_id u') (users_collection w1) =
          Some (mkDoc (user_id d) (message_count d) (subscribed d) [])) as Hd1.
  { subst w1. pose proof (step_effect env (OpReset u) w) as He. simpl in He.
    rewrite He, Hu.
    by rewrite (find_first_update_first _ _ _ d); [|apply apply_update_user_id|]. }
  destruct (handle_message_first_event env u' rt w1 _ Hd1) as [tail Ht].
  exists tail. rewrite Ht, Hu. unfold gate_open, prompt_for. simpl.
  by destruct (subscribed d || (message_count d <? 10)).
Qed.

Lemma reset_then_message_witness :
  ∃ tail,
    trace (handle_message calm (text_update 7 "again") None
             (step calm (OpReset (text_update 7 "/reset"))
                (world_of [mkDoc 7 12 false [mkTurn (Some "a") "b"]]))).2 =
    [DbUpdate 7 [SetConversationHistory []];
     Reply "Your conversation history has been reset.";
     CheckoutSessionCreate "7"] ++ tail.
Proof.
  destruct (reset_then_message calm (text_update 7 "/reset") (text_update 7 "again") None
              (world_of [mkDoc 7 12 false [mkTurn (Some "a") "b"]])
              (mkDoc 7 12 false [mkTurn (Some "a") "b"]) eq_refl eq_refl) as [tail H].
  exists tail. exact H.
Defined.

(** ** The prompt *)

Lemma string_app_assoc (a b c : string) : (a +:+ b) +:+ c = a +:+ (b +:+ c).
Proof.
  induction a as [|x a IH]; [done|].
  change (String x ((a +:+ b) +:+ c) = String x (a +:+ (b +:+ c))).
  by rewrite IH.
Qed.

Lemma concat_snoc sep (l : list string) x :
  l ≠ [] → String.concat sep (l ++ [x]) = String.concat sep l +:+ sep +:+ x.
Proof.
  induction l as [|a l IH]; [done|]. intros _.
  destruct l as [|b l]; [done|].
  change (String.concat sep ((a :: b :: l) ++ [x]))
    with (a +:+ sep +:+ String.concat sep ((b :: l) ++ [x])).
  rewrite IH by done.
  change (String.concat sep (a :: b :: l))
    with (a +:+ sep +:+ String.concat sep (b :: l)).
  by rewrite !string_app_assoc.
Qed.

(** X14. The prompt is the running transcript.  For a record with a
    non-empty history, the prompt of the message after a processed exchange
    is the previous prompt, followed by the bot's reply and the new user
    line; for a record with an empty history the first prompt is an empty
    line followed by the user line, and the second prompt is the transcript
    without that empty line. *)
Theorem prompt_accumulates d m r m' :
  let d' := apply_update (inc_push (mkTurn m r)) d in
  (conversation_history d ≠ [] →
   prompt_for d' m' =
   prompt_for d m +:+ nl +:+ "Bot: " +:+ r +:+ nl +:+ "User: " +:+ fmt m')
  ∧
  (conversation_history d = [] →
   prompt_for d m = nl +:+ "User: " +:+ fmt m ∧
   prompt_for d' m' =
   "User: " +:+ fmt m +:+ nl +:+ "Bot: " +:+ r +:+ nl +:+ "User: " +:+ fmt m').
Proof.
  cbv zeta. unfold prompt_for, conversation_history_text. simpl. split.
  - intros Hne. rewrite map_app. simpl. rewrite concat_snoc.
    + by rewrite !string_app_assoc.
    + by destruct (conversation_history d).
  - intros ->. simpl. split; [done|]. by rewrite !string_app_assoc.
Qed.

Lemma prompt_accumulates_witness :
  prompt_for
    (apply_update (inc_push (mkTurn (Some "hello") "Hi!")) (mkDoc 7 1 false [mkTurn (Some "a") "b"]))
    (Some "bye")
  = prompt_for (mkDoc 7 1 false [mkTurn (Some "a") "b"]) (Some "hello") +:+
    nl +:+ "Bot: " +:+ "Hi!" +:+ nl +:+ "User: " +:+ "bye".
Proof.
  destruct (prompt_accumulates (mkDoc 7 1 false [mkTurn (Some "a") "b"])
              (Some "hello") "Hi!" (Some "bye")) as [H _].
  apply H. done.
Defined.

(** ** The quota *)

Lemma text_step_record env u w :
  (∀ t p, ∃ r, groq env t p = inr r) →
  (∀ t s, telegram_reply_text env t s = None) →
  let uid := from_user_id u in
  let d := default (new_user uid) (find_first uid (users_collection w)) in
  ∃ d',
    find_first uid (users_collection (step env (OpText u) w)) = Some d' ∧
    subscribed d' = subscribed d ∧
    message_count d' = (if gate_open d then message_count d + 1 else message_count d) ∧
    length (conversation_history d') =
      (if gate_open d then S (length (conversation_history d))
       else length (conversation_history d)).
Proof.
  intros Hllm Hsend uid d. unfold step. cbn [run].
  destruct (gate_open d) eqn:Hg.
  - destruct (handle_message_open env u None w Hg) as (w0 & Hu0 & Hc0 & ->).
    rewrite generate_and_store_run. cbv zeta.
    destruct (Hllm (clock w0)
                (conversation_history_text (conversation_history d) +:+ nl +:+
                 "User: " +:+ fmt (message_of u None))) as [r Hr].
    fold uid d. rewrite Hr, Hsend. world_simpl. rewrite Hu0.
    erewrite find_first_update_first;
      [|apply apply_update_user_id|apply find_first_ensure_user].
    eexists. split; [done|]. subst d uid. simpl. rewrite length_app. simpl.
    repeat split; lia.
  - subst d. destruct (find_first uid (users_collection w)) as [d|] eqn:E;
      [|discriminate Hg]. simpl in Hg.
    rewrite (handle_message_found _ _ _ _ d E), Hg, paywall_users, E.
    by exists d.
Qed.

Lemma quota_steps env uid us :
  (∀ t p, ∃ r, groq env t p = inr r) →
  (∀ t s, telegram_reply_text env t s = None) →
  Forall (λ u, from_user_id u = uid) us →
  ∀ w d,
    find_first uid (users_collection w) = Some d →
    ∃ d',
      find_first uid (users_collection (steps env (OpText <$> us) w)) = Some d' ∧
      subscribed d' = subscribed d ∧
      message_count d' = count_after (subscribed d) (message_count d) (length us) ∧
      Z.of_nat (length (conversation_history d')) =
        Z.of_nat (length (conversation_history d)) + (message_count d' - message_count d).
Proof.
  intros Hllm Hsend Hus. induction Hus as [|u us Hu _ IH]; intros w d Hd.
  - exists d. unfold count_after. simpl. repeat split; [done|..|lia].
    destruct (subscribed d); [lia|]. destruct (message_count d <? 10) eqn:E; lia.
  - rewrite fmap_cons. cbn [steps fold_left].
    pose proof (text_step_record env u w Hllm Hsend) as H1. cbv zeta in H1.
    rewrite Hu, Hd in H1. simpl in H1. destruct H1 as (d1 & Hd1 & Hs1 & Hc1 & Hh1).
    destruct (IH _ _ Hd1) as (d' & Hd' & Hs' & Hc' & Hh').
    exists d'. split; [exact Hd'|]. split; [congruence|].
    rewrite Hs1 in Hc'. unfold gate_open in Hc1, Hh1.
    unfold count_after in *. cbn [length].
    destruct (subscribed d); simpl in Hc1, Hh1.
    + split; lia.
    + destruct (message_count d <? 10) eqn:E1;
        destruct (message_count d1 <? 10) eqn:E2; split; lia.
Qed.

(** X15. Ten free replies, then the paywall; no limit for subscribers.  In an
    environment where the language model answers and messages can be sent,
    after a run of text messages from one user the user's count is the old
    count plus the number of messages if subscribed, and otherwise climbs to
    10 and stops there (a count already at 10 or more stays); the history
    grows by exactly as many entries as the count. *)
Theorem free_quota_then_paywall env uid us w :
  (∀ t p, ∃ r, groq env t p = inr r) →
  (∀ t s, telegram_reply_text env t s = None) →
  Forall (λ u, from_user_id u = uid) us →
  us ≠ [] ∨ is_Some (find_first uid (users_collection w)) →
  let d := default (new_user uid) (find_first uid (users_collection w)) in
  ∃ d',
    find_first uid (users_collection (steps env (OpText <$> us) w)) = Some d' ∧
    subscribed d' = subscribed d ∧
    message_count d' = count_after (subscribed d) (message_count d) (length us) ∧
    Z.of_nat (length (conversation_history d')) =
      Z.of_nat (length (conversation_history d)) + (message_count d' - message_count d).
Proof.
  intros Hllm Hsend Hus Hcase d. subst d.
  destruct (find_first uid (users_collection w)) as [d|] eqn:E.
  - by apply quota_steps.
  - destruct Hcase as [Hne|[? ?]]; [|done].
    destruct Hus as [|u us Hu Hus]; [done|].
    rewrite fmap_cons. cbn [steps fold_left].
    pose proof (text_step_record env u w Hllm Hsend) as H1. cbv zeta in H1.
    rewrite Hu, E in H1. simpl in H1. destruct H1 as (d1 & Hd1 & Hs1 & Hc1 & Hh1).
    destruct (quota_steps env uid us Hllm Hsend Hus _ _ Hd1)
      as (d' & Hd' & Hs' & Hc' & Hh').
    exists d'. split; [exact Hd'|]. split; [simpl; congruence|].
    rewrite Hs1 in Hc'. unfold count_after in *. simpl. simpl in Hc'.
    destruct (message_count d1 <? 10) eqn:E2; split; lia.
Qed.

Lemma free_quota_then_paywall_witness :
  ∃ d',
    find_first 7
      (users_collection
         (steps calm (OpText <$> replicate 12 (text_update 7 "hello")) (world_of []))) = Some d' ∧
    message_count d' = 10.
Proof.
  destruct (free_quota_then_paywall calm 7 (replicate 12 (text_update 7 "hello"))
              (world_of [])) as (d' & Hd' & _ & Hc & _).
  - intros t p. by exists "I hear you.".
  - done.
  - by apply Forall_replicate.
  - by left.
  - exists d'. split; [exact Hd'|]. exact Hc.
Defined.

(** ** Answers *)

Lemma replies_app tr1 tr2 : replies (tr1 ++ tr2) = replies tr1 ++ replies tr2.
Proof. apply omap_app. Qed.

Lemma answers_once_reply_text env s : answers_once (reply_text env s).
Proof.
  intros w. rewrite reply_text_run.
  destruct (telegram_reply_text env (clock w) s); [done|].
  unfold logged, tick. world_simpl. rewrite replies_app. by exists s.
Qed.

(** Running [m] after a step that reaches a world with the same replies. *)
Lemma answers_once_from {A} (m : M A) w w0 :
  answers_once m → replies (trace w0) = replies (trace w) →
  match m w0 with
  | (Ok _, w') => ∃ s, replies (trace w') = replies (trace w) ++ [s]
  | (Raise _, w') => replies (trace w') = replies (trace w)
  end.
Proof. intros Hm Hw. specialize (Hm w0). by rewrite Hw in Hm. Qed.

Lemma answers_once_generate_and_store env uid ht msg :
  answers_once (generate_and_store env uid ht msg).
Proof.
  intros w. rewrite generate_and_store_run. cbv zeta.
  destruct (groq env _ _) as [e|response].
  - apply answers_once_from; [apply answers_once_reply_text|].
    unfold logged, tick. world_simpl. rewrite replies_app. simpl. apply app_nil_r.
  - destruct (telegram_reply_text env _ response).
    + apply answers_once_from; [apply answers_once_reply_text|].
      unfold logged, tick. world_simpl. rewrite replies_app. simpl. apply app_nil_r.
    + world_simpl. exists response. by rewrite replies_app.
Qed.

Lemma answers_once_paywall env uid : answers_once (paywall env uid).
Proof.
  intros w. rewrite paywall_run. cbv zeta.
  destruct (stripe_checkout_Session_create env _ _) as [e|url].
  - unfold logged, tick. world_simpl. rewrite replies_app. simpl. apply app_nil_r.
  - apply answers_once_from; [apply answers_once_reply_text|].
    unfold logged, tick. world_simpl. rewrite replies_app. simpl. apply app_nil_r.
Qed.

Lemma answers_once_handle_message env u rt : answers_once (handle_message env u rt).
Proof.
  intros w.
  destruct (find_first (from_user_id u) (users_collection w)) as [d|] eqn:E.
  - rewrite (handle_message_found _ _ _ _ d E). destruct (gate_open d).
    + apply answers_once_generate_and_store.
    + apply answers_once_paywall.
  - rewrite handle_message_missing by done.
    apply answers_once_from; [apply answers_once_generate_and_store|].
    world_simpl. rewrite replies_app. simpl. apply app_nil_r.
Qed.

Lemma answers_once_media env u (prompt : M string) s :
  quiet prompt →
  answers_once
    (try_except (response_text ← prompt; handle_message env u (Some response_text))
       (λ _, reply_text env s)).
Proof.
  intros Hq w. rewrite media_handler_run.
  destruct (Hq w) as [_ Ht]. destruct (prompt w) as [[rt|e] w1]; simpl in Ht.
  - pose proof (answers_once_from _ w w1 (answers_once_handle_message env u (Some rt))
                  (f_equal replies Ht)) as H.
    destruct (handle_message env u (Some rt) w1) as [[[]|e] w2]; [exact H|].
    apply answers_once_from; [apply answers_once_reply_text|exact H].
  - apply answers_once_from; [apply answers_once_reply_text|by rewrite Ht].
Qed.

(** With a driver that answers, a Telegram handler that returns has
    delivered exactly one message, and one that raises none; the webhook
    sends none. *)
Lemma run_answers_once env op :
  (is_telegram op = true → answers_once (run env op)) ∧
  (is_telegram op = false →
   ∀ w, replies (trace (run env op w).2) = replies (trace w)).
Proof.
  split.
  - intros Ht. destruct op as [u|u|u|u|u|u|r]; [..|done]; cbn [run].
    + intros w. unfold start. rewrite bind_run. unfold find_one at 1.
      destruct (find_first _ _); rewrite bind_run.
      * apply answers_once_reply_text.
      * unfold insert_one at 1. apply answers_once_from;
          [apply answers_once_reply_text|].
        world_simpl. rewrite replies_app. simpl. apply app_nil_r.
    + intros w. unfold reset. rewrite bind_run. unfold update_one at 1.
      apply answers_once_from; [apply answers_once_reply_text|].
      world_simpl. rewrite replies_app. simpl. apply app_nil_r.
    + apply answers_once_handle_message.
    + apply answers_once_media, quiet_photo_prompt.
    + apply answers_once_media, quiet_voice_prompt.
    + apply answers_once_media, quiet_video_prompt.
  - intros Ht w. destruct op as [u|u|u|u|u|u|r]; try done. cbn [run].
    assert (replies (trace (stripe_webhook env r w).2) = replies (trace w)) as Hw.
    { destruct (stripe_Webhook_construct_event env (clock w) (payload r)
                  (sig_header r) (STRIPE_WEBHOOK_SECRET env)) as [e|ev] eqn:Hev.
      - by rewrite (stripe_webhook_rejected _ _ _ _ Hev).
      - rewrite (stripe_webhook_verified _ _ _ _ Hev). rewrite bind_run.
        assert (replies (trace (dispatch_event env ev (tick w)).2) = replies (trace w))
          as Hd.
        { assert (∀ v b, replies (trace ((n ← py_int env v;
                            update_one n [SetSubscribed b]) (tick w)).2)
                         = replies (trace w)) as Hset.
          { intros v b. rewrite bind_run, py_int_run.
            destruct v as [s|]; [|done]. destruct (int_of_str env s); [|done].
            unfold update_one, tick. world_simpl. rewrite replies_app. simpl.
            apply app_nil_r. }
          unfold dispatch_event, handle_checkout_session,
            handle_invoice_payment_succeeded, handle_subscription_updated,
            handle_subscription_deleted.
          repeat destruct (String.eqb _ _); try destruct (truthy _);
            first [ apply Hset | done ]. }
        by destruct (dispatch_event env ev (tick w)) as [[[]|?] ?]. }
    rewrite bind_run. by destruct (stripe_webhook env r w) as [[?|?] ?].
Qed.

(** X16. No update is dropped in silence: a Telegram handler ([start],
    [reset], [handle_message], the media handlers) that returns normally has
    delivered at least one message to the user since it was called, after
    those delivered before; and the webhook never sends a message. *)
Theorem returned_updates_are_answered env op w :
  (is_telegram op = true →
   ∀ a w', run env op w = (Ok a, w') →
           replies (trace w) `prefix_of` replies (trace w') ∧
           (length (replies (trace w)) < length (replies (trace w')))%nat)
  ∧
  (is_telegram op = false →
   replies (trace (run env op w).2) = replies (trace w)).
Proof.
  destruct (run_answers_once env op) as [Htele Hweb]. split.
  - intros Ht a w' Hrun. specialize (Htele Ht w). rewrite Hrun in Htele.
    destruct Htele as [s ->]. split; [by apply prefix_app_r|].
    rewrite length_app. simpl. lia.
  - intros Ht. by apply Hweb.
Qed.

Lemma returned_updates_are_answered_witness :
  replies (trace (world_of [])) `prefix_of`
    replies (trace (run no_llm (OpPhoto (photo_update 7)) (world_of [])).2) ∧
  (length (replies (trace (world_of []))) <
   length (replies (trace (run no_llm (OpPhoto (photo_update 7)) (world_of [])).2)))%nat.
Proof.
  destruct (returned_updates_are_answered no_llm (OpPhoto (photo_update 7)) (world_of []))
    as [H _].
  apply (H eq_refl tt). reflexivity.
Defined.

(** X17. Stripe being down at the paywall.  For an unsubscribed user at 10 or
    more messages, when creating the checkout session raises: a text message
    gets no answer at all and the exception leaves [handle_message]; a media
    message (whose handler calls [handle_message] inside its [try]) is
    answered with the media handler's apology.  Neither touches the
    collection. *)
Theorem stripe_failure_at_the_paywall env w d uid e :
  find_first uid (users_collection w) = Some d →
  subscribed d = false →
  10 ≤ message_count d →
  stripe_checkout_Session_create env (clock w) (pretty uid) = inl e →
  let w1 := mkWorld (users_collection w)
              (trace w ++ [CheckoutSessionCreate (pretty uid)]) (S (clock w)) in
  (∀ u rt, from_user_id u = uid → handle_message env u rt w = (Raise e, w1))
  ∧
  (∀ op m w0 rt,
     media_prompt env op = Some m →
     sender op = Some uid →
     m w0 = (Ok rt, w) →
     run env op w0 = reply_text env (media_apology op) w1).
Proof.
  intros Hd Hs Hc He w1.
  assert (gate_open d = false) as Hg.
  { unfold gate_open. rewrite Hs. simpl. lia. }
  assert (∀ u rt, from_user_id u = uid → handle_message env u rt w = (Raise e, w1))
    as Htext.
  { intros u rt Hu. rewrite <- Hu in Hd, He.
    rewrite (handle_message_found _ _ _ _ d Hd), Hg, paywall_run. cbv zeta.
    rewrite He. subst w1. by rewrite Hu. }
  split; [exact Htext|].
  intros op m w0 rt Hm Hsender Hok.
  destruct (run_media env op m Hm) as (u & Hu & ->).
  rewrite media_handler_run, Hok, (Htext u (Some rt)); [done|congruence].
Qed.

Lemma stripe_failure_at_the_paywall_witness :
  handle_message stripe_down (text_update 7 "hello") None (world_of [mkDoc 7 10 false []])
  = (Raise (LibraryError "stripe is down"),
     mkWorld [mkDoc 7 10 false []] [CheckoutSessionCreate "7"] 1).
Proof.
  destruct (stripe_failure_at_the_paywall stripe_down (world_of [mkDoc 7 10 false []])
              (mkDoc 7 10 false []) 7 (LibraryError "stripe is down")) as [H _];
    [reflexivity | reflexivity | simpl; lia | reflexivity |].
  apply H. reflexivity.
Defined.

(** ** More on utils.py *)

Lemma mapM_length {A B} (f : A → M B) (l : list A) w v w' :
  mapM f l w = (Ok v, w') → length v = length l.
Proof.
  revert w v. induction l as [|a l IH]; intros w v; simpl.
  - intros H. unfold mret, M_ret in H. by simplify_eq.
  - intros H. apply bind_Ok_inv in H as (b & w1 & _ & H).
    apply bind_Ok_inv in H as (bs & w2 & Hbs & H).
    unfold mret, M_ret in H. simplify_eq. simpl. f_equal. by eapply IH.
Qed.

Lemma max_key_go_max best d :
  ∃ v, (max_key_go best d, v) ∈ best :: d ∧ ∀ kv, kv ∈ best :: d → kv.2 ≤ v.
Proof.
  revert best. induction d as [|kv d IH]; intros best; simpl.
  - exists best.2. split; [destruct best; by left|].
    intros kv ->%list_elem_of_singleton. done.
  - destruct (Z.gtb_spec kv.2 best.2) as [Hgt|Hle].
    + destruct (IH kv) as (v & Hin & Hmax). exists v. split; [by right|].
      intros x [->|Hx]%elem_of_cons; [|by apply Hmax].
      specialize (Hmax kv (list_elem_of_here _ _)). lia.
    + destruct (IH best) as (v & Hin & Hmax). exists v. split.
      * apply elem_of_cons in Hin as [Hin|Hin]; [rewrite Hin; by left|].
        right. by right.
      * intros x [->|[->|Hx]%elem_of_cons]%elem_of_cons.
        -- apply Hmax. by left.
        -- specialize (Hmax best (list_elem_of_here _ _)). lia.
        -- apply Hmax. by right.
Qed.

Lemma detect_emotion_run env face w :
  detect_emotion env face w =
  match FER_detect_emotions env (clock w) face with
  | inl e => (Raise e, tick w)
  | inr [] => (Ok "neutral", tick w)
  | inr (e0 :: _) => max_key e0 (tick w)
  end.
Proof.
  unfold detect_emotion. rewrite bind_run. unfold extern at 1.
  by destruct (FER_detect_emotions env (clock w) face) as [e|[|e0 ?]].
Qed.

(** X18. [detect_emotion] names the dominant emotion of the first face FER
    reports: a label of that face's scores whose score no other label
    exceeds; when FER reports no face it answers "neutral", and when the
    first face carries no scores it raises [ValueError] (the [max] of an
    empty dict). *)
Theorem detect_emotion_is_dominant env face w :
  (FER_detect_emotions env (clock w) face = inr [] →
   detect_emotion env face w = (Ok "neutral", tick w))
  ∧
  (∀ rest, FER_detect_emotions env (clock w) face = inr ([] :: rest) →
           detect_emotion env face w = (Raise ValueError, tick w))
  ∧
  (∀ kv scores rest,
     FER_detect_emotions env (clock w) face = inr ((kv :: scores) :: rest) →
     ∃ label v,
       detect_emotion env face w = (Ok label, tick w) ∧
       (label, v) ∈ kv :: scores ∧
       ∀ x, x ∈ kv :: scores → x.2 ≤ v).
Proof.
  rewrite detect_emotion_run. repeat split.
  - by intros ->.
  - by intros rest ->.
  - intros kv scores rest ->. simpl.
    destruct (max_key_go_max kv scores) as (v & Hin & Hmax). by eexists _, v.
Qed.

Lemma detect_emotion_is_dominant_witness :
  ∃ label v,
    detect_emotion calm one_pixel (world_of []) = (Ok label, tick (world_of [])) ∧
    (label, v) ∈ [("angry", 5); ("happy", 80); ("sad", 15)] ∧
    ∀ x, x ∈ [("angry", 5); ("happy", 80); ("sad", 15)] → x.2 ≤ v.
Proof.
  destruct (detect_emotion_is_dominant calm one_pixel (world_of [])) as (_ & _ & H).
  apply (H ("angry", 5) [("happy", 80); ("sad", 15)] []). reflexivity.
Defined.

(** X19. [analyze_image] labels each detected face once: when the image is
    read, converted and searched for faces without an exception, the answer
    is the fallback [["error"]] or has exactly one label per face; with no
    face detected it is the empty list (where [analyze_video] would say
    [["neutral"]]). *)
Theorem analyze_image_one_label_per_face env path w image gray faces :
  cv2_imread env (clock w) path = inr (Some image) →
  cv2_cvtColor env (S (clock w)) image = inr gray →
  detectMultiScale env (S (S (clock w))) gray = inr faces →
  (∀ v, (analyze_image env path w).1 = Ok v →
        v = ["error"] ∨ length v = length faces)
  ∧
  (faces = [] → analyze_image env path w = (Ok [], tick (tick (tick w)))).
Proof.
  intros Hread Hgray Hfaces.
  assert (analyze_image_try env path w =
          mapM (λ r, detect_emotion env (crop image r)) faces (tick (tick (tick w))))
    as Htry.
  { unfold analyze_image_try. rewrite bind_run. unfold extern at 1. rewrite Hread.
    rewrite bind_run. unfold extern at 1. world_norm. rewrite Hgray.
    rewrite bind_run. unfold extern at 1. world_norm. by rewrite Hfaces. }
  unfold analyze_image. rewrite try_except_run, Htry. split.
  - intros v.
    destruct (mapM (λ r, detect_emotion env (crop image r)) faces
                (tick (tick (tick w)))) as [[v0|e] w1] eqn:E;
      simpl; intros; simplify_eq.
    + right. by eapply mapM_length.
    + by left.
  - by intros ->.
Qed.

Lemma analyze_image_one_label_per_face_witness :
  ["happy"] = ["error"] ∨ length ["happy"] = 1%nat.
Proof.
  destruct (analyze_image_one_label_per_face calm "downloads/photo.jpg" (world_of [])
              one_pixel one_pixel [(0, 0, 1, 1)%nat] eq_refl eq_refl eq_refl) as [H _].
  apply (H ["happy"]). reflexivity.
Defined.

Lemma analyze_video_try_nonempty env path w v w' :
  analyze_video_try env path w = (Ok v, w') → v ≠ [].
Proof.
  unfold analyze_video_try. intros H.
  apply bind_Ok_inv in H as ([opened frames] & w1 & _ & H).
  apply bind_Ok_inv in H as (emotions & w2 & _ & H).
  apply bind_Ok_inv in H as ([] & w3 & _ & H).
  destruct emotions; unfold mret, M_ret in H; by simplify_eq.
Qed.

(** X20. [analyze_video] never answers with an empty list: whatever the
    capture, the frames and the classifiers do, its value has at least one
    label (the labels found, [["neutral"]] or [["error"]]). *)
Theorem analyze_video_never_empty env path w :
  ∃ v, (analyze_video env path w).1 = Ok v ∧ v ≠ [].
Proof.
  unfold analyze_video. rewrite try_except_run.
  destruct (analyze_video_try env path w) as [[v|e] w1] eqn:E; simpl.
  - exists v. split; [done|]. by eapply analyze_video_try_nonempty.
  - by eexists.
Qed.

(** ** What the media handlers store *)

(** X21. For a photo, voice or video message the user's side of the exchange
    is the handler's own description (the detected emotions, or the sentiment
    and transcript), never [update.message.text]: the description is never
    empty, so [handle_message] takes its [response_text] branch, and a
    processed media message sends that description to the language model
    and stores it with the reply. *)
Theorem media_messages_store_their_description env op m u w rt w1 response :
  media_prompt env op = Some m →
  sender op = Some (from_user_id u) →
  m w = (Ok rt, w1) →
  let uid := from_user_id u in
  let d := default (new_user uid) (find_first uid (users_collection w)) in
  gate_open d = true →
  groq env (clock w1) (prompt_for d (Some rt)) = inr response →
  telegram_reply_text env (S (clock w1)) response = None →
  message_of u (Some rt) = Some rt ∧
  ∃ d',
    find_first uid (users_collection (handle_message env u (Some rt) w1).2) = Some d' ∧
    conversation_history d' = conversation_history d ++ [mkTurn (Some rt) response].
Proof.
  intros Hm Hs Hok uid d Hg Hgroq Hsend.
  assert (message_of u (Some rt) = Some rt) as Hmsg.
  { unfold message_of. by rewrite (media_prompt_truthy _ _ _ _ _ _ Hm Hok). }
  split; [done|].
  destruct (quiet_media_prompt env op m Hm w) as [Hu _]. rewrite Hok in Hu. simpl in Hu.
  subst d uid. rewrite <- Hu in *.
  destruct (handle_message_open env u (Some rt) w1 Hg) as (w0 & Hu0 & Hc0 & ->).
  rewrite generate_and_store_run. cbv zeta. rewrite Hc0, Hmsg.
  fold (prompt_for (default (new_user (from_user_id u))
                      (find_first (from_user_id u) (users_collection w1))) (Some rt)).
  rewrite Hgroq, Hsend. world_simpl. rewrite Hu0.
  erewrite find_first_update_first;
    [|apply apply_update_user_id|apply find_first_ensure_user].
  eexists. split; [done|]. done.
Qed.

Lemma media_messages_store_their_description_witness :
  message_of (photo_update 7)
    (Some ("Detected emotions in the image: happy." +:+ nl +:+
           "Generate a response based on these emotions."))
  = Some ("Detected emotions in the image: happy." +:+ nl +:+
          "Generate a response based on these emotions.").
Proof.
  destruct (media_messages_store_their_description calm (OpPhoto (photo_update 7))
              (photo_prompt calm (photo_update 7)) (photo_update 7) (world_of [])
              ("Detected emotions in the image: happy." +:+ nl +:+
               "Generate a response based on these emotions.")
              (mkWorld [] [] 8) "I hear you.") as [H _];
    [reflexivity..|exact H].
Defined.
